(** * node-test-jest-compat: the registry, the retry controller and the
    test/describe facade, embedded in Rocq.

    Sources embedded here (file names as the imports in [index.ts] give them):
    - [registry.ts]      module-level state and the five registries;
    - [testFunctions.ts] [createTestFunction], [createDescribeFunction],
                         [handleRetries] (what [index.ts] installs as the
                         globals [test] and [describe]);
    - [testRetries.ts]   the older decorators [withRetries] and
                         [enhanceDescribeFunction];
    - [mockFunctions.ts], [moduleMocking.ts]  thin wrappers over the registry.

    Modelling conventions.
    - A JavaScript value of type [any] is a [value]: the primitives, objects
      with an identity and own properties, and the [TypeError] the runtime
      allocates when a property of [undefined] or [null] is read.  Numbers are
      the integers plus [NaN], and a retry count is an integer; symbols,
      bigints, getters and proxies are not part of the fragment.
    - Code that can throw or that calls into the host runs in the monad [M]:
      a state monad over [World] with a result that is either a value or a
      thrown [value].
    - [async] functions are run to completion in sequence: a rejected promise
      is a thrown value, a resolved one a returned value.
    - Calls into the companion libraries (a mock's [mockClear], a module mock
      context's [restore], [test.mock.module]) are recorded in the [host]
      trace of the world; what the host answers is a parameter ([Host]).
    - [console.log]/[console.error] lines are kept with the holes of their
      template literal as fields. *)

From stdpp Require Import gmap strings list fin_maps.
From Stdlib Require Import ZArith Lia.

Set Warnings "-register-all".

Local Open Scope string_scope.
Local Open Scope Z_scope.

(** ** JavaScript values *)

Module JS.

Inductive value : Type :=
| VUndefined
| VNull
| VBool (b : bool)
| VNumber (n : Z)
| VNaN
| VString (s : string)
| VObject (ref : nat) (callable : bool) (props : list (string * value))
| VTypeError (msg : string).

(** ToBoolean. *)
Definition truthy (v : value) : bool :=
  match v with
  | VUndefined | VNull | VNaN => false
  | VBool b => b
  | VNumber n => negb (n =? 0)
  | VString s => negb (String.eqb s "")
  | VObject _ _ _ | VTypeError _ => true
  end.

(** [typeof v === 'function'] *)
Definition is_function (v : value) : bool :=
  match v with
  | VObject _ c _ => c
  | _ => false
  end.

(** [typeof v === 'object' && v !== null] *)
Definition is_plain_object (v : value) : bool :=
  match v with
  | VObject _ c _ => negb c
  | VTypeError _ => true
  | _ => false
  end.

Fixpoint assoc (k : string) (ps : list (string * value)) : option value :=
  match ps with
  | [] => None
  | (k', v) :: ps' => if String.eqb k k' then Some v else assoc k ps'
  end.

(** Result of an expression that may throw. *)
Inductive Res (A : Type) : Type :=
| Ok (a : A)
| Throw (e : value).
Arguments Ok {A} a.
Arguments Throw {A} e.

(** [v.k]: reading a property of [undefined] or [null] throws a TypeError;
    a primitive has none of the properties the shim reads ([message],
    [_isMockFunction], [mockClear], [mockReset], [mockRestore], [restore],
    [__esModule], [default]). *)
Definition get_prop (v : value) (k : string) : Res value :=
  match v with
  | VUndefined =>
      Throw (VTypeError ("Cannot read properties of undefined (reading '" +:+ k +:+ "')"))
  | VNull =>
      Throw (VTypeError ("Cannot read properties of null (reading '" +:+ k +:+ "')"))
  | VObject _ _ ps => Ok (default VUndefined (assoc k ps))
  | VTypeError m => Ok (if String.eqb k "message" then VString m else VUndefined)
  | VBool _ | VNumber _ | VNaN | VString _ => Ok VUndefined
  end.

(** SameValueZero, the key equality of [Map] and [Set]: objects by
    identity, primitives by value, [NaN] equal to itself. *)
Definition same_value_zero (a b : value) : bool :=
  match a, b with
  | VUndefined, VUndefined | VNull, VNull | VNaN, VNaN => true
  | VBool x, VBool y => Bool.eqb x y
  | VNumber x, VNumber y => x =? y
  | VString x, VString y => String.eqb x y
  | VObject r _ _, VObject r' _ _ => Nat.eqb r r'
  | VTypeError x, VTypeError y => String.eqb x y
  | _, _ => false
  end.

Definition is_boolean (v : value) : bool :=
  match v with VBool _ => true | _ => false end.

End JS.
Import JS.

(** ** Module-level state of [registry.ts] *)

Record DescribeBlock : Type := mkBlock {
  name : string;
  retryCount : Z
}.

Record SpyInfo : Type := mkSpyInfo {
  object : value;
  methodName : string;
  original : value;
  accessType : option string
}.

(** A [Set<any>] is an insertion-ordered list without SameValueZero
    duplicates, a [Map<any, _>] an insertion-ordered association list with
    unique keys; [Map<string, any>] is a [gmap].  The top of [describeStack]
    is its last element, as [Array.prototype.push]/[pop] have it. *)
Record Registry : Type := mkRegistry {
  createdMocks : list value;
  spiedFunctions : list (value * SpyInfo);
  mockedModules : gmap string value;
  moduleCache : gmap string value;
  currentTestContext : value;
  currentRetryCount : Z;
  describeStack : list DescribeBlock;
  onlyMode : bool
}.

(** The state when [registry.ts] has just been loaded. *)
Definition initialRegistry : Registry :=
  {| createdMocks := [];
     spiedFunctions := [];
     mockedModules := ∅;
     moduleCache := ∅;
     currentTestContext := VNull;
     currentRetryCount := 0;
     describeStack := [];
     onlyMode := false |}.

Definition set_currentRetryCount (n : Z) (r : Registry) : Registry :=
  {| createdMocks := createdMocks r; spiedFunctions := spiedFunctions r;
     mockedModules := mockedModules r; moduleCache := moduleCache r;
     currentTestContext := currentTestContext r;
     currentRetryCount := n;
     describeStack := describeStack r; onlyMode := onlyMode r |}.

Definition set_describeStack (s : list DescribeBlock) (r : Registry) : Registry :=
  {| createdMocks := createdMocks r; spiedFunctions := spiedFunctions r;
     mockedModules := mockedModules r; moduleCache := moduleCache r;
     currentTestContext := currentTestContext r;
     currentRetryCount := currentRetryCount r;
     describeStack := s; onlyMode := onlyMode r |}.

Definition set_onlyMode (b : bool) (r : Registry) : Registry :=
  {| createdMocks := createdMocks r; spiedFunctions := spiedFunctions r;
     mockedModules := mockedModules r; moduleCache := moduleCache r;
     currentTestContext := currentTestContext r;
     currentRetryCount := currentRetryCount r;
     describeStack := describeStack r; onlyMode := b |}.

Definition set_currentTestContext (c : value) (r : Registry) : Registry :=
  {| createdMocks := createdMocks r; spiedFunctions := spiedFunctions r;
     mockedModules := mockedModules r; moduleCache := moduleCache r;
     currentTestContext := c;
     currentRetryCount := currentRetryCount r;
     describeStack := describeStack r; onlyMode := onlyMode r |}.

Definition set_createdMocks (l : list value) (r : Registry) : Registry :=
  {| createdMocks := l; spiedFunctions := spiedFunctions r;
     mockedModules := mockedModules r; moduleCache := moduleCache r;
     currentTestContext := currentTestContext r;
     currentRetryCount := currentRetryCount r;
     describeStack := describeStack r; onlyMode := onlyMode r |}.

Definition set_spiedFunctions (l : list (value * SpyInfo)) (r : Registry) : Registry :=
  {| createdMocks := createdMocks r; spiedFunctions := l;
     mockedModules := mockedModules r; moduleCache := moduleCache r;
     currentTestContext := currentTestContext r;
     currentRetryCount := currentRetryCount r;
     describeStack := describeStack r; onlyMode := onlyMode r |}.

Definition set_mockedModules (m : gmap string value) (r : Registry) : Registry :=
  {| createdMocks := createdMocks r; spiedFunctions := spiedFunctions r;
     mockedModules := m; moduleCache := moduleCache r;
     currentTestContext := currentTestContext r;
     currentRetryCount := currentRetryCount r;
     describeStack := describeStack r; onlyMode := onlyMode r |}.

Definition set_moduleCache (m : gmap string value) (r : Registry) : Registry :=
  {| createdMocks := createdMocks r; spiedFunctions := spiedFunctions r;
     mockedModules := mockedModules r; moduleCache := m;
     currentTestContext := currentTestContext r;
     currentRetryCount := currentRetryCount r;
     describeStack := describeStack r; onlyMode := onlyMode r |}.

(** ** [retryRegistry] *)

Definition with_retryCount (count : Z) (b : DescribeBlock) : DescribeBlock :=
  {| name := name b; retryCount := count |}.

(** [currentRetryCount = count; if (describeStack.length > 0)
    describeStack[describeStack.length - 1].retryCount = count;] *)
Definition setGlobalRetryCount (count : Z) (r : Registry) : Registry :=
  let r1 := set_currentRetryCount count r in
  if (0 <? length (describeStack r1))%nat
  then set_describeStack
         (alter (with_retryCount count) (length (describeStack r1) - 1)%nat
                (describeStack r1)) r1
  else r1.

(** [if (describeStack.length > 0) return describeStack[length - 1].retryCount;
    return currentRetryCount;] *)
Definition getCurrentRetryCount (r : Registry) : Z :=
  if (0 <? length (describeStack r))%nat
  then match describeStack r !! (length (describeStack r) - 1)%nat with
       | Some b => retryCount b
       | None => currentRetryCount r
       end
  else currentRetryCount r.

(** [const inherited = getCurrentRetryCount();
    describeStack.push({ name, retryCount: inherited });] *)
Definition pushDescribeBlock (nm : string) (r : Registry) : Registry :=
  let inheritedRetryCount := getCurrentRetryCount r in
  set_describeStack
    (describeStack r ++ [ {| name := nm; retryCount := inheritedRetryCount |} ]) r.

(** [describeStack.pop();] (no effect on the empty array) *)
Definition popDescribeBlock (r : Registry) : Registry :=
  set_describeStack (removelast (describeStack r)) r.

(** ** [filterRegistry] and [testContextRegistry] *)

Definition setOnlyMode (enabled : bool) (r : Registry) : Registry :=
  set_onlyMode enabled r.

Definition isOnlyMode (r : Registry) : bool := onlyMode r.

Definition setCurrentTestContext (context : value) (r : Registry) : Registry :=
  set_currentTestContext context r.

Definition getCurrentTestContext (r : Registry) : value := currentTestContext r.

(** ** The world the shim and the test files run in *)

(** Calls that leave the shim. *)
Inductive HostEvent : Type :=
| MethodCall (target : value) (method : string)
| MockModuleCall (moduleName : string) (defaultExport namedExports : value).

Inductive ConsoleLine : Type :=
| LogRetry (testName : string) (attemptNo : Z) (message : value)
| ErrorMocking (moduleName : string) (error : value).

Record World : Type := mkWorld {
  registry : Registry;
  vars : gmap string value;
  console : list ConsoleLine;
  host : list HostEvent;
  heapNext : nat
}.

Definition initialWorld : World :=
  {| registry := initialRegistry; vars := ∅; console := []; host := [];
     heapNext := 0%nat |}.

Definition set_registry (r : Registry) (w : World) : World :=
  {| registry := r; vars := vars w; console := console w; host := host w;
     heapNext := heapNext w |}.

Definition set_vars (v : gmap string value) (w : World) : World :=
  {| registry := registry w; vars := v; console := console w; host := host w;
     heapNext := heapNext w |}.

Definition add_console (l : ConsoleLine) (w : World) : World :=
  {| registry := registry w; vars := vars w; console := console w ++ [l];
     host := host w; heapNext := heapNext w |}.

Definition add_host (e : HostEvent) (w : World) : World :=
  {| registry := registry w; vars := vars w; console := console w;
     host := host w ++ [e]; heapNext := heapNext w |}.

Definition bump_heap (w : World) : World :=
  {| registry := registry w; vars := vars w; console := console w;
     host := host w; heapNext := S (heapNext w) |}.

(** State and exception monad. *)
Definition M (A : Type) : Type := World → Res A * World.

Definition ret {A} (a : A) : M A := λ w, (Ok a, w).
Definition throw {A} (e : value) : M A := λ w, (Throw e, w).
Definition bind {A B} (m : M A) (k : A → M B) : M B :=
  λ w, match m w with
       | (Ok a, w') => k a w'
       | (Throw e, w') => (Throw e, w')
       end.
Definition lift {A} (r : Res A) : M A := λ w, (r, w).
Definition modify_registry (f : Registry → Registry) : M unit :=
  λ w, (Ok tt, set_registry (f (registry w)) w).
Definition read_registry {A} (f : Registry → A) : M A :=
  λ w, (Ok (f (registry w)), w).
(** [try { m } catch (error) { h error }] *)
Definition try_catch {A} (m : M A) (h : value → M A) : M A :=
  λ w, match m w with
       | (Ok a, w') => (Ok a, w')
       | (Throw e, w') => h e w'
       end.

Declare Scope shim_scope.
Delimit Scope shim_scope with shim.
Notation "'let*' x ':=' m 'in' k" := (bind m (λ x, k))
  (at level 10, x name, m at level 100, k at level 200) : shim_scope.
Notation "m >>> k" := (bind m (λ _, k))
  (at level 90, right associativity) : shim_scope.
Local Open Scope shim_scope.

(** [for (const x of xs) f(x)], stopping at the first throw. *)
Fixpoint for_each {A} (f : A → M unit) (xs : list A) : M unit :=
  match xs with
  | [] => ret tt
  | x :: xs' => f x >>> for_each f xs'
  end.

(** [target.method()] for a method of a companion library: the property is
    read, must be callable, and the call is recorded. *)
Definition invoke (target : value) (method : string) : M value :=
  let* f := lift (get_prop target method) in
  if is_function f
  then (λ w, (Ok VUndefined, add_host (MethodCall target method) w))
  else throw (VTypeError (method +:+ " is not a function")).

(** [if (typeof target.method === 'function') target.method();] *)
Definition invoke_if_function (target : value) (method : string) : M unit :=
  let* f := lift (get_prop target method) in
  if is_function f then invoke target method >>> ret tt else ret tt.

(** ** [mockRegistry] *)

(** [Set.prototype.add] *)
Definition set_add (x : value) (s : list value) : list value :=
  if existsb (same_value_zero x) s then s else s ++ [x].

(** [Map.prototype.set]: an existing key keeps its position. *)
Fixpoint map_set {B} (k : value) (b : B) (m : list (value * B)) : list (value * B) :=
  match m with
  | [] => [(k, b)]
  | (k', b') :: m' =>
      if same_value_zero k k' then (k', b) :: m' else (k', b') :: map_set k b m'
  end.

Definition registerMock (mock : value) (r : Registry) : Registry :=
  set_createdMocks (set_add mock (createdMocks r)) r.

Definition registerSpy (spy obj : value) (method : string) (orig : value)
    (access : option string) (r : Registry) : Registry :=
  let r1 := set_spiedFunctions
              (map_set spy {| object := obj; methodName := method;
                              original := orig; accessType := access |}
                       (spiedFunctions r)) r in
  set_createdMocks (set_add spy (createdMocks r1)) r1.

Definition clearAllMocks : M unit :=
  let* mocks := read_registry createdMocks in
  for_each (λ mock, invoke_if_function mock "mockClear") mocks.

Definition resetAllMocks : M unit :=
  let* mocks := read_registry createdMocks in
  for_each (λ mock, invoke_if_function mock "mockReset") mocks.

Definition restoreAllMocks : M unit :=
  let* spies := read_registry spiedFunctions in
  for_each (λ entry : value * SpyInfo,
              invoke_if_function (fst entry) "mockRestore") spies >>>
  modify_registry (set_spiedFunctions []).

(** [return fn && !!fn._isMockFunction;] *)
Definition isMockFunction (fn : value) : Res value :=
  if truthy fn
  then match get_prop fn "_isMockFunction" with
       | Ok flag => Ok (VBool (truthy flag))
       | Throw e => Throw e
       end
  else Ok fn.

(** ** [moduleRegistry] *)

Definition registerMockedModule (moduleName : string) (mockContext : value)
    (r : Registry) : Registry :=
  set_mockedModules (<[moduleName := mockContext]> (mockedModules r)) r.

(** [Map.prototype.get]: [undefined] for a missing key. *)
Definition getMockedModule (moduleName : string) (r : Registry) : value :=
  default VUndefined (mockedModules r !! moduleName).

Definition hasMockedModule (moduleName : string) (r : Registry) : bool :=
  bool_decide (is_Some (mockedModules r !! moduleName)).

(** [const mockContext = mockedModules.get(moduleName);
    if (mockContext) { mockContext.restore(); mockedModules.delete(moduleName); }] *)
Definition unmockModule (moduleName : string) : M unit :=
  let* mockContext := read_registry (getMockedModule moduleName) in
  if truthy mockContext
  then invoke mockContext "restore" >>>
       modify_registry (λ r, set_mockedModules (delete moduleName (mockedModules r)) r)
  else ret tt.

Definition cacheModule (moduleName : string) (module : value) (r : Registry) : Registry :=
  set_moduleCache (<[moduleName := module]> (moduleCache r)) r.

Definition getCachedModule (moduleName : string) (r : Registry) : value :=
  default VUndefined (moduleCache r !! moduleName).

(** ** The host runner

    [node:test] is not part of the repository.  What the shim needs of it is
    taken as a parameter: what [test.mock.module] answers (a mock context or
    a thrown error, and the next free object identity, given the calls made
    so far and the first free identity), whether [describe] runs the
    callback of a suite with the given options, and whether it re-throws what
    the callback throws or records it as the suite's failure. *)

Record Options : Type := mkOptions {
  only : bool;
  skip : bool;
  todo : bool;
  timeout : option Z
}.

Definition noOptions : Options :=
  {| only := false; skip := false; todo := false; timeout := None |}.

Record Host : Type := mkHost {
  mock_module : list HostEvent → nat → string → value → value → Res value * nat;
  suite_runs : Options → bool;
  suite_rethrows : bool
}.

(** What [nodeTest(name, options, fn)] receives; the host runs [reg_fn]
    later, once per execution of the test.  [None] as a run result stands
    for a run that does not finish. *)
Record Registration : Type := mkRegistration {
  reg_name : string;
  reg_options : Options;
  reg_fn : option (value → World → option (Res value * World))
}.

Definition nodeDescribe (h : Host) (nm : string) (options : Options)
    (fn : option (M value)) : M value :=
  match fn with
  | None => ret VUndefined
  | Some f =>
      if suite_runs h options
      then if suite_rethrows h then f
           else try_catch f (λ _, ret VUndefined)
      else ret VUndefined
  end.

(** ** [moduleMocking.ts] *)

(** [{}] *)
Definition new_object : M value :=
  λ w, (Ok (VObject (heapNext w) false []), bump_heap w).

Definition set_heapNext (n : nat) (w : World) : World :=
  {| registry := registry w; vars := vars w; console := console w;
     host := host w; heapNext := n |}.

(** [test.mock.module(moduleName, { defaultExport, namedExports })] *)
Definition test_mock_module (h : Host) (moduleName : string)
    (defaultExport namedExports : value) : M value :=
  λ w, let answer :=
         mock_module h (host w) (heapNext w) moduleName defaultExport namedExports in
       (fst answer,
        set_heapNext (snd answer)
          (add_host (MockModuleCall moduleName defaultExport namedExports) w)).

(** [moduleExports.__esModule ? moduleExports.default : moduleExports] *)
Definition defaultExport_of (moduleExports : value) : Res value :=
  match get_prop moduleExports "__esModule" with
  | Ok esm =>
      if truthy esm then get_prop moduleExports "default" else Ok moduleExports
  | Throw e => Throw e
  end.

(** [moduleExports.__esModule ? moduleExports : moduleExports] *)
Definition namedExports_of (moduleExports : value) : Res value :=
  match get_prop moduleExports "__esModule" with
  | Ok esm => if truthy esm then Ok moduleExports else Ok moduleExports
  | Throw e => Throw e
  end.

Definition mockModule (h : Host) (moduleName : string)
    (factory : option (M value)) : M value :=
  let* already := read_registry (hasMockedModule moduleName) in
  if already : bool then ret VUndefined
  else
    let* moduleExports :=
      match factory with
      | Some f => f
      | None => new_object
      end in
    try_catch
      (let* defaultExport := lift (defaultExport_of moduleExports) in
       let* namedExports := lift (namedExports_of moduleExports) in
       let* mockContext :=
         test_mock_module h moduleName defaultExport namedExports in
       modify_registry (registerMockedModule moduleName mockContext) >>>
       ret mockContext)
      (λ error,
         (λ w, (Ok tt, add_console (ErrorMocking moduleName error) w)) >>>
         throw error).

(** ** The retry loop

    [handleRetries] in [testFunctions.ts] and the [wrappedFn] of
    [withRetries] in [testRetries.ts] have the same body:
<<
      let lastError; let attempt = 0;
      while (attempt <= retryCount) {
        try { await fn(t, ...args); return; }
        catch (error) {
          lastError = error;
          if (attempt < retryCount) console.log(`... (${error.message})`);
          attempt++;
        }
      }
      if (lastError) throw lastError;
>>
    [retry_while] is the loop from a given [attempt] and [lastError]; [fuel]
    bounds the number of iterations and [None] is an exhausted bound. *)

Definition TestFn : Type := value → M value.

Fixpoint retry_while (fuel : nat) (fn : M value) (retryCount : Z)
    (testName : string) (attempt : Z) (lastError : value) (w : World)
    : option (Res value * World) :=
  match fuel with
  | O => None
  | S fuel' =>
      if attempt <=? retryCount then
        match fn w with
        | (Ok _, w1) => Some (Ok VUndefined, w1)
        | (Throw error, w1) =>
            if attempt <? retryCount then
              match get_prop error "message" with
              | Throw typeError => Some (Throw typeError, w1)
              | Ok message =>
                  retry_while fuel' fn retryCount testName (attempt + 1) error
                    (add_console (LogRetry testName (attempt + 1) message) w1)
              end
            else
              retry_while fuel' fn retryCount testName (attempt + 1) error w1
        end
      else
        Some (if truthy lastError then Throw lastError else Ok VUndefined, w)
  end.

(** One iteration more than the loop can make. *)
Definition retry_fuel (retryCount : Z) : nat := S (Z.to_nat (retryCount + 1)).

Definition handleRetries (t : value) (fn : TestFn) (retryCount : Z)
    (testName : string) : World → option (Res value * World) :=
  retry_while (retry_fuel retryCount) (fn t) retryCount testName 0 VUndefined.

(** ** [testFunctions.ts]: the [test] and [describe] that [index.ts] exports *)

(** The second and third positional arguments, by what [typeof] says. *)
Inductive Arg (F : Type) : Type :=
| ArgFunction (f : F)
| ArgOptions (o : Options)
| ArgNumber (n : Z)
| ArgNull
| ArgUndefined.
Arguments ArgFunction {F} f.
Arguments ArgOptions {F} o.
Arguments ArgNumber {F} n.
Arguments ArgNull {F}.
Arguments ArgUndefined {F}.

Definition with_timeout (n : Z) (o : Options) : Options :=
  {| only := only o; skip := skip o; todo := todo o; timeout := Some n |}.

Definition testFunction_wrappedFn (nm : string) (fn : TestFn) (t : value)
    (w : World) : option (Res value * World) :=
  let w1 := set_registry (setCurrentTestContext t (registry w)) w in
  let retryCount := getCurrentRetryCount (registry w1) in
  if retryCount >? 0
  then handleRetries t fn retryCount nm w1
  else Some (fn t w1).

Definition testFunction (nm : string) (fnOrOptions maybeTimeout : Arg TestFn)
    : Registration :=
  let '(fn, options) :=
    match fnOrOptions with
    | ArgFunction f =>
        (Some f,
         match maybeTimeout with
         | ArgNumber n => with_timeout n noOptions
         | _ => noOptions
         end)
    | ArgOptions o =>
        (match maybeTimeout with
         | ArgFunction f => Some f
         | _ => None
         end, o)
    | _ => (None, noOptions)
    end in
  {| reg_name := nm; reg_options := options;
     reg_fn := option_map (testFunction_wrappedFn nm) fn |}.

Definition optArg {F} (fn : option F) : Arg F :=
  match fn with Some f => ArgFunction f | None => ArgUndefined end.

Definition testFunction_only (nm : string) (fn : option TestFn)
    (tmo : option Z) : M Registration :=
  let options :=
    match tmo with
    | Some n => with_timeout n {| only := true; skip := false; todo := false; timeout := None |}
    | None => {| only := true; skip := false; todo := false; timeout := None |}
    end in
  modify_registry (setOnlyMode true) >>>
  ret (testFunction nm (ArgOptions options) (optArg fn)).

Definition testFunction_skip (nm : string) (fn : option TestFn) : Registration :=
  testFunction nm
    (ArgOptions {| only := false; skip := true; todo := false; timeout := None |})
    (optArg fn).

Definition testFunction_todo (nm : string) : Registration :=
  testFunction nm
    (ArgOptions {| only := false; skip := false; todo := true; timeout := None |})
    ArgUndefined.

Definition testFunction_retryTimes (count : Z) : M unit :=
  modify_registry (setGlobalRetryCount count).

(** The suite callback [describeFunction] hands to the host:
    [() => { pushDescribeBlock(name); fn(); popDescribeBlock(); }] *)
Definition describeFunction_wrappedFn (nm : string) (fn : M value) : M value :=
  modify_registry (pushDescribeBlock nm) >>>
  fn >>>
  modify_registry popDescribeBlock >>>
  ret VUndefined.

Definition describeFunction (h : Host) (nm : string)
    (fnOrOptions : Arg (M value)) (fn : option (M value)) : M value :=
  let '(fn, options) :=
    match fnOrOptions with
    | ArgFunction f => (Some f, noOptions)
    | ArgOptions o => (fn, o)
    | _ => (fn, noOptions)
    end in
  nodeDescribe h nm options (option_map (describeFunction_wrappedFn nm) fn).

Definition describeFunction_only (h : Host) (nm : string)
    (fn : option (M value)) : M value :=
  modify_registry (setOnlyMode true) >>>
  describeFunction h nm
    (ArgOptions {| only := true; skip := false; todo := false; timeout := None |}) fn.

Definition describeFunction_skip (h : Host) (nm : string)
    (fn : option (M value)) : M value :=
  describeFunction h nm
    (ArgOptions {| only := false; skip := true; todo := false; timeout := None |}) fn.

Definition describeFunction_todo (h : Host) (nm : string)
    (fn : option (M value)) : M value :=
  describeFunction h nm
    (ArgOptions {| only := false; skip := false; todo := true; timeout := None |}) fn.

(** ** [testRetries.ts]: the decorators *)

(** The second argument of [retryableTest] in the call shapes it is written
    for: the body, an options object, or nothing. *)
Inductive OptionsArg : Type :=
| OptFunction (f : TestFn)
| OptObject (o : Options)
| OptOmitted.

(** [withRetries(testFn)(name, options, fn)], with [testFn] the host's
    [test]: [retryCount] is read when the test is registered and the
    [wrappedFn] closes over it. *)
Definition withRetries_wrappedFn (nm : string) (fn : TestFn) (retryCount : Z)
    (t : value) : World → option (Res value * World) :=
  retry_while (retry_fuel retryCount) (fn t) retryCount nm 0 VUndefined.

Definition withRetries (r : Registry) (nm : string) (options : OptionsArg)
    (fn : option TestFn) : Registration :=
  let '(fn, options) :=
    match options with
    | OptFunction f => (Some f, noOptions)
    | OptObject o => (fn, o)
    | OptOmitted => (fn, noOptions)
    end in
  let retryCount := getCurrentRetryCount r in
  match fn with
  | None => {| reg_name := nm; reg_options := options; reg_fn := None |}
  | Some fn =>
      let wrappedFn := withRetries_wrappedFn nm fn retryCount in
      {| reg_name := nm; reg_options := options; reg_fn := Some wrappedFn |}
  end.

(** The callback of [enhanceDescribeFunction]'s [enhancedDescribe], of its
    [only] and of its [todo]:
    [() => { pushDescribeBlock(name); if (fn) fn(); popDescribeBlock(); }] *)
Definition enhancedDescribe_callback (nm : string) (fn : option (M value)) : M value :=
  modify_registry (pushDescribeBlock nm) >>>
  match fn with Some f => f | None => ret VUndefined end >>>
  modify_registry popDescribeBlock >>>
  ret VUndefined.

(** ** Test files as programs over the public API

    What a test file does while it is loaded, and what a test body does
    while it runs: its own code on its own variables, [throw], and calls of
    [test], [describe], their [only]/[skip]/[todo] and [retryTimes]. *)

Inductive Variant : Type := Plain | Only | Skip.

Inductive Script : Type :=
| SDone
| SThrow (e : value)
| SUser (f : gmap string value → gmap string value) (k : Script)
| SRetryTimes (count : Z) (k : Script)
| STest (v : Variant) (nm : string) (body : Script) (k : Script)
| STestTodo (nm : string) (k : Script)
| SDescribe (v : Variant) (nm : string) (body : Script) (k : Script)
| SDescribeTodo (nm : string) (body : Script) (k : Script).

Definition register_test (v : Variant) (nm : string) (fn : TestFn) : M Registration :=
  match v with
  | Plain => ret (testFunction nm (ArgFunction fn) ArgUndefined)
  | Only => testFunction_only nm (Some fn) None
  | Skip => ret (testFunction_skip nm (Some fn))
  end.

Definition register_suite (h : Host) (v : Variant) (nm : string) (fn : M value) : M value :=
  match v with
  | Plain => describeFunction h nm (ArgFunction fn) None
  | Only => describeFunction_only h nm (Some fn)
  | Skip => describeFunction_skip h nm (Some fn)
  end.

Fixpoint exec (h : Host) (s : Script) : M value :=
  match s with
  | SDone => ret VUndefined
  | SThrow e => throw e
  | SUser f k => (λ w, (Ok tt, set_vars (f (vars w)) w)) >>> exec h k
  | SRetryTimes count k => testFunction_retryTimes count >>> exec h k
  | STest v nm body k => register_test v nm (λ _, exec h body) >>> exec h k
  | STestTodo nm k => ret (testFunction_todo nm) >>> exec h k
  | SDescribe v nm body k => register_suite h v nm (exec h body) >>> exec h k
  | SDescribeTodo nm body k => describeFunction_todo h nm (Some (exec h body)) >>> exec h k
  end.

(** ** Test bodies used as inputs

    [failing_first errors K] is the body of a test that counts its
    invocations in the variable [counter] of its file, throws [errors i] on
    invocation [i + 1] for [i < K], and returns from invocation [K + 1] on. *)

Definition counter (w : World) : nat :=
  match vars w !! "counter" with
  | Some (VNumber c) => Z.to_nat c
  | _ => 0%nat
  end.

Definition failing_first (errors : nat → value) (K : nat) : TestFn :=
  λ _ w,
    let i := counter w in
    let w' := set_vars (<["counter" := VNumber (Z.of_nat (S i))]> (vars w)) w in
    (if (i <? K)%nat then Throw (errors i) else Ok VUndefined, w').

(** A body that counts its invocations and throws [e] on each. *)
Definition always_throws (e : value) : TestFn :=
  λ _ w,
    (Throw e,
     set_vars (<["counter" := VNumber (Z.of_nat (S (counter w)))]> (vars w)) w).

(** An [Error] object with the given identity and message. *)
Definition error_object (ref : nat) (message : string) : value :=
  VObject ref false [("message", VString message)].

(** ** Auxiliary definitions for the statements *)

Definition depth (w : World) : nat := length (describeStack (registry w)).

(** The world in which the suite body starts. *)
Definition entered (nm : string) (w : World) : World :=
  set_registry (pushDescribeBlock nm (registry w)) w.

Definition nullish (v : value) : bool :=
  match v with VUndefined | VNull => true | _ => false end.

(** What the host answers in the examples: a context object with a
    [restore] method, at the first two free identities. *)
Definition mock_context (ref : nat) : value :=
  VObject ref false [("restore", VObject (S ref) true [])].

Definition example_host : Host :=
  {| mock_module := λ _ ref _ _ _, (Ok (mock_context ref), S (S ref));
     suite_runs := λ o, negb (skip o);
     suite_rethrows := false |}.

(** A world in which ["fs"] is mocked with the context the host gave. *)
Definition fs_mocked : World :=
  set_heapNext 2
    (set_registry (registerMockedModule "fs" (mock_context 0) initialRegistry)
       initialWorld).

(** A factory that leaves a mark when it runs:
    [() => { factoryRan = true; return { readFileSync: f }; }] *)
Definition marking_factory : M value :=
  λ w, (Ok (VObject (heapNext w) false
              [("readFileSync", VObject (S (heapNext w)) true [])]),
        set_heapNext (S (S (heapNext w)))
          (set_vars (<["factoryRan" := VBool true]> (vars w)) w)).

(** [typeof v.method === 'function'], when [v] is not [undefined] or [null]. *)
Definition has_method (v : value) (method : string) : bool :=
  match get_prop v method with
  | Ok f => is_function f
  | Throw _ => false
  end.

Definition add_hosts (es : list HostEvent) (w : World) : World :=
  {| registry := registry w; vars := vars w; console := console w;
     host := host w ++ es; heapNext := heapNext w |}.

(** The [mockRestore] calls [restoreAllMocks] makes, in the order of the map. *)
Definition restore_calls (spies : list (value * SpyInfo)) : list HostEvent :=
  map (λ entry, MethodCall (fst entry) "mockRestore")
      (filter (λ entry, has_method (fst entry) "mockRestore" = true) spies).

(** A spy as [spyOn] returns it. *)
Definition spy_function (ref : nat) : value :=
  VObject ref true
    [("_isMockFunction", VBool true); ("mockClear", VObject (ref + 1) true []);
     ("mockReset", VObject (ref + 2) true []);
     ("mockRestore", VObject (ref + 3) true [])].

Definition two_spies : World :=
  set_registry
    (registerSpy (spy_function 20) (VObject 2 false []) "write" (VObject 3 true []) None
       (registerSpy (spy_function 10) (VObject 1 false []) "read" (VObject 4 true []) None
          initialRegistry))
    initialWorld.

Definition only_on (w : World) : Prop := onlyMode (registry w) = true.

(** A computation that never clears the flag. *)
Definition keeps_only {A} (m : M A) : Prop := ∀ w, only_on w → only_on (snd (m w)).

(** A computation that leaves the flag set, whatever it was. *)
Definition sets_only {A} (m : M A) : Prop := ∀ w, only_on (snd (m w)).

(** [describe.only('A', () => { test('a', ...) }); describe('B', () => {
    jest.retryTimes(1); test.skip('b', ...) });] run from a world in which
    an earlier [.only] has set the flag. *)
Definition only_then_sibling : Script :=
  SDescribe Only "A" (STest Plain "a" SDone SDone)
    (SDescribe Plain "B" (SRetryTimes 1 (STest Skip "b" (SThrow VNull) SDone)) SDone).

(** ** [moduleRegistry.resetAllModules] and [requireMock]

    [resetAllModules] restores every stored context (with no guard on the
    context), clears both maps and, where [require.cache] exists, deletes
    every key of it.  [requireCache] is that cache ([None] in an ES module)
    and the result is the cache afterwards.  A [gmap] does not keep the
    insertion order of the [Map]; the contexts are visited in the order of
    [map_to_list], and the statements about this function do not depend on
    the order. *)
Definition resetAllModules (requireCache : option (gmap string value))
    : M (option (gmap string value)) :=
  let* contexts := read_registry (λ r, map_to_list (mockedModules r)) in
  for_each (λ entry : string * value, invoke (snd entry) "restore" >>> ret tt)
           contexts >>>
  modify_registry (set_mockedModules ∅) >>>
  modify_registry (set_moduleCache ∅) >>>
  ret (match requireCache with
       | Some _ => Some ∅
       | None => None
       end).

(** [requireMock] of [mockFunctions.ts]; [requireActual] loads the real
    module and belongs to the host. *)
Definition requireMock (requireActual : string → M value) (moduleName : string)
    : M value :=
  let* cachedModule := read_registry (getCachedModule moduleName) in
  if truthy cachedModule then ret cachedModule else requireActual moduleName.

(** ** [snapshot.ts]: the [toMatchSnapshot] matcher

    The matcher returns [{ message: () => ..., pass }]; [matcher_message]
    is what the [message] function gives when it is called.  [snapshot] is
    the host's [context.assert.snapshot], given the calls made so far and
    the received value. *)
Record MatcherResult : Type := mkMatcherResult {
  matcher_pass : bool;
  matcher_message : Res value
}.

(** [new Error(msg)] *)
Definition new_error (msg : string) : M value :=
  λ w, (Ok (VObject (heapNext w) false [("message", VString msg)]), bump_heap w).

(** [error.message || 'Snapshot does not match'] *)
Definition mismatch_message (error : value) : Res value :=
  match get_prop error "message" with
  | Ok m => Ok (if truthy m then m else VString "Snapshot does not match")
  | Throw e => Throw e
  end.

Definition toMatchSnapshot (snapshot : list HostEvent → value → Res value)
    (received : value) : M MatcherResult :=
  let* context := read_registry getCurrentTestContext in
  let* usable :=
    (if truthy context
     then let* a := lift (get_prop context "assert") in ret (truthy a)
     else ret false) in
  if negb usable
  then let* e := new_error "Snapshot testing requires a test context with assert property" in
       throw e
  else
    try_catch
      (let* assert := lift (get_prop context "assert") in
       let* f := lift (get_prop assert "snapshot") in
       if is_function f
       then (λ w, (snapshot (host w) received,
                   add_host (MethodCall assert "snapshot") w)) >>>
            ret {| matcher_pass := true;
                   matcher_message := Ok (VString "Snapshot matches") |}
       else throw (VTypeError "context.assert.snapshot is not a function"))
      (λ error,
         ret {| matcher_pass := false; matcher_message := mismatch_message error |}).

(** ** [fakeTimers.ts]

    The state of the [FakeTimers] singleton: its [isFaking] flag, the calls
    it has made on the host's [mock.timers] and the warnings it has
    printed. *)
Inductive TimerCall : Type :=
| TimersEnable (apis : list string) (now : option value)
| TimersReset
| TimersRunAll
| TimersTick (ms : Z)
| TimersSetTime (time : value).

Record FakeTimers : Type := mkFakeTimers {
  isFaking : bool;
  mockTimers : list TimerCall;
  timerWarnings : list string
}.

Definition newFakeTimers : FakeTimers :=
  {| isFaking := false; mockTimers := []; timerWarnings := [] |}.

Record TimersConfig : Type := mkTimersConfig {
  cfg_doNotFake : option (list string);
  cfg_now : value
}.

Definition defaultApis : list string :=
  ["setTimeout"; "setInterval"; "setImmediate"; "Date"].

Definition timers_call (c : TimerCall) (ft : FakeTimers) : FakeTimers :=
  {| isFaking := isFaking ft; mockTimers := mockTimers ft ++ [c];
     timerWarnings := timerWarnings ft |}.

Definition timers_warn (text : string) (ft : FakeTimers) : FakeTimers :=
  {| isFaking := isFaking ft; mockTimers := mockTimers ft;
     timerWarnings := timerWarnings ft ++ [text] |}.

Definition set_isFaking (b : bool) (ft : FakeTimers) : FakeTimers :=
  {| isFaking := b; mockTimers := mockTimers ft;
     timerWarnings := timerWarnings ft |}.

(** [Array.prototype.includes] on strings *)
Definition includes (x : string) (l : list string) : bool :=
  existsb (String.eqb x) l.

Definition apis_of (config : TimersConfig) : list string :=
  match cfg_doNotFake config with
  | Some doNotFake =>
      List.filter (λ api, negb (includes api doNotFake)) defaultApis
  | None => defaultApis
  end.

(** What the host's [mock.timers] answers to a call, given the calls made
    before it: [None] when the call returns, [Some e] when it throws [e]
    (an [enable] of timers that are enabled, a [tick] of timers that are
    not).  The call is recorded in either case. *)
Definition TimersHost : Type := list TimerCall → TimerCall → option value.

Definition timers_try (th : TimersHost) (c : TimerCall) (ft : FakeTimers)
    : option value * FakeTimers :=
  (th (mockTimers ft) c, timers_call c ft).

(** [config.now !== undefined ? config.now : 0] *)
Definition now_of (config : TimersConfig) : value :=
  match cfg_now config with
  | VUndefined => VNumber 0
  | v => v
  end.

(** [if (this.isFaking) this.mockTimers.reset(); ...;
    this.mockTimers.enable({ apis, now }); this.isFaking = true;]
    A call that throws ends the function there, with the thrown value as
    the first component. *)
Definition useFakeTimers (th : TimersHost) (config : TimersConfig)
    (ft : FakeTimers) : option value * FakeTimers :=
  match (if isFaking ft then timers_try th TimersReset ft else (None, ft)) with
  | (Some e, ft1) => (Some e, ft1)
  | (None, ft1) =>
      let apis := apis_of config in
      let now := now_of config in
      match timers_try th (TimersEnable apis (Some now)) ft1 with
      | (Some e, ft2) => (Some e, ft2)
      | (None, ft2) => (None, set_isFaking true ft2)
      end
  end.

Definition useRealTimers (ft : FakeTimers) : FakeTimers :=
  if isFaking ft then set_isFaking false (timers_call TimersReset ft) else ft.

Definition notFakingWarning : string :=
  "A function to advance timers was called but the timers APIs are not replaced with fake timers. Call `jest.useFakeTimers()` in this test file or enable fake timers for all tests by setting 'fakeTimers': {'enableGlobally': true} in Jest configuration file.".

Definition ensureFakingTime (ft : FakeTimers) : FakeTimers :=
  if isFaking ft then ft else timers_warn notFakingWarning ft.

(** [runAllTimers]; [runAllTimersAsync], [runOnlyPendingTimers] and
    [runOnlyPendingTimersAsync] have the same two statements. *)
Definition runAllTimers (ft : FakeTimers) : FakeTimers :=
  timers_call TimersRunAll (ensureFakingTime ft).

Definition runOnlyPendingTimers (ft : FakeTimers) : FakeTimers :=
  timers_call TimersRunAll (ensureFakingTime ft).

Definition advanceTimersByTime (msToRun : Z) (ft : FakeTimers) : FakeTimers :=
  timers_call (TimersTick msToRun) (ensureFakingTime ft).



Definition clearAllTimers (ft : FakeTimers) : FakeTimers :=
  timers_call (TimersEnable defaultApis None)
    (timers_call TimersReset (ensureFakingTime ft)).

Definition getTimerCount (ft : FakeTimers) : Z * FakeTimers :=
  (0, timers_warn "getTimerCount is not supported in Node.js test runner." ft).

(** The argument of [setSystemTime]: a [Date], given by its [getTime()], or
    any other value (also [undefined] for a missing argument). *)
Inductive TimeArg : Type :=
| TimeDate (getTime : Z)
| TimeValue (v : value).

Definition setSystemTime (now : TimeArg) (ft : FakeTimers) : FakeTimers :=
  let time := match now with
              | TimeDate t => VNumber t
              | TimeValue v => if truthy v then v else VNumber 0
              end in
  timers_call (TimersSetTime time) (ensureFakingTime ft).

(** ** Auxiliary definitions for the further statements *)

(** A script with no [throw] in what runs while the file is loaded: the
    file itself and the suite bodies (test bodies run later). *)
Fixpoint throw_free (s : Script) : bool :=
  match s with
  | SDone => true
  | SThrow _ => false
  | SUser _ k | SRetryTimes _ k | STestTodo _ k | STest _ _ _ k => throw_free k
  | SDescribe _ _ body k | SDescribeTodo _ body k =>
      throw_free body && throw_free k
  end.

Definition is_only (v : Variant) : bool :=
  match v with Only => true | _ => false end.

(** A script that calls neither [test.only] nor [describe.only] while the
    file is loaded (test bodies run later and do not count). *)
Fixpoint only_free (s : Script) : bool :=
  match s with
  | SDone | SThrow _ => true
  | SUser _ k | SRetryTimes _ k | STestTodo _ k => only_free k
  | STest v _ _ k => negb (is_only v) && only_free k
  | SDescribe v _ body k => negb (is_only v) && only_free body && only_free k
  | SDescribeTodo _ body k => only_free body && only_free k
  end.

(** [target.method()] for each of the targets that has the method. *)
Definition method_calls (method : string) (targets : list value) : list HostEvent :=
  map (λ target, MethodCall target method)
      (List.filter (λ target, has_method target method) targets).

(** [error.message] as the retry line shows it. *)
Definition message_of (error : value) : value :=
  match get_prop error "message" with
  | Ok m => m
  | Throw _ => VUndefined
  end.

(** The retry lines for the failed attempts [from + 1 .. from + count]. *)
Definition retry_lines (nm : string) (errors : nat → value) (from count : nat)
    : list ConsoleLine :=
  map (λ i, LogRetry nm (Z.of_nat i + 1) (message_of (errors i))) (seq from count).

(** A computation that keeps a property of the world. *)
Definition preserves {A} (P : World → Prop) (m : M A) : Prop :=
  ∀ w, P w → P (snd (m w)).

(** Only the count of the top entry differs. *)
Definition same_but_top_count (l l' : list DescribeBlock) : Prop :=
  map name l' = map name l ∧ removelast l' = removelast l.

(** * Properties *)

(** ** The retry registry *)

Section RetryRegistry.

Implicit Types (r : Registry) (nm : string) (n : Z).

Lemma getCurrentRetryCount_last r :
  getCurrentRetryCount r =
  match last (describeStack r) with
  | Some b => retryCount b
  | None => currentRetryCount r
  end.
Proof.
  unfold getCurrentRetryCount.
  destruct (describeStack r) as [|b l] eqn:E using rev_ind; [done|].
  rewrite length_app, last_snoc. simpl.
  replace (0 <? length l + 1)%nat with true by (symmetry; apply Nat.ltb_lt; lia).
  replace (length l + 1 - 1)%nat with (length l + 0)%nat by lia.
  by rewrite lookup_app_r, Nat.add_0_r, Nat.sub_diag by lia.
Qed.

Lemma describeStack_push r nm :
  describeStack (pushDescribeBlock nm r) =
  (describeStack r ++ [ {| name := nm; retryCount := getCurrentRetryCount r |} ])%list.
Proof. reflexivity. Qed.

Lemma describeStack_pop r :
  describeStack (popDescribeBlock r) = removelast (describeStack r).
Proof. reflexivity. Qed.

Lemma pop_push r nm : describeStack (popDescribeBlock (pushDescribeBlock nm r)) = describeStack r.
Proof. simpl. apply removelast_last. Qed.

Lemma length_push r nm :
  length (describeStack (pushDescribeBlock nm r)) = S (length (describeStack r)).
Proof. rewrite describeStack_push, length_app. simpl. lia. Qed.

Lemma length_removelast {A} (l : list A) : length (removelast l) = pred (length l).
Proof.
  destruct l as [|x l] using rev_ind; [done|].
  rewrite removelast_last, length_app. simpl. lia.
Qed.

Lemma length_pop r :
  length (describeStack (popDescribeBlock r)) = pred (length (describeStack r)).
Proof. rewrite describeStack_pop. apply length_removelast. Qed.

Lemma describeStack_setGlobal_empty r n :
  describeStack r = [] → describeStack (setGlobalRetryCount n r) = [].
Proof. unfold setGlobalRetryCount. simpl. intros E. rewrite E. simpl. exact E. Qed.

Lemma describeStack_setGlobal_snoc r n l b :
  describeStack r = (l ++ [b])%list →
  describeStack (setGlobalRetryCount n r) = (l ++ [with_retryCount n b])%list.
Proof.
  unfold setGlobalRetryCount. simpl. intros E. rewrite E.
  rewrite length_app. simpl.
  replace (0 <? length l + 1)%nat with true by (symmetry; apply Nat.ltb_lt; lia).
  simpl.
  replace (length l + 1 - 1)%nat with (length l + 0)%nat by lia.
  by rewrite alter_app_r.
Qed.

Lemma currentRetryCount_setGlobal r n :
  currentRetryCount (setGlobalRetryCount n r) = n.
Proof. unfold setGlobalRetryCount. simpl. by destruct (0 <? _)%nat. Qed.

Lemma getCurrentRetryCount_setGlobal r n :
  getCurrentRetryCount (setGlobalRetryCount n r) = n.
Proof.
  rewrite getCurrentRetryCount_last.
  destruct (describeStack r) as [|b l] eqn:E using rev_ind.
  - rewrite (describeStack_setGlobal_empty _ _ E). simpl.
    apply currentRetryCount_setGlobal.
  - rewrite (describeStack_setGlobal_snoc _ _ _ _ E), last_snoc. done.
Qed.

Lemma length_setGlobal r n :
  length (describeStack (setGlobalRetryCount n r)) = length (describeStack r).
Proof.
  unfold setGlobalRetryCount. simpl.
  destruct (0 <? _)%nat; simpl; [apply length_alter|done].
Qed.

End RetryRegistry.

(** C4. [pushDescribeBlock] computes the inherited count (the innermost
    entry's count when the stack is non-empty, the global default otherwise)
    before it pushes, and leaves the entries below untouched;
    [setGlobalRetryCount n] sets the global default and, when the stack is
    non-empty, overwrites the count of the top entry only.  Hence
    [getCurrentRetryCount] answers [n] right after [setGlobalRetryCount n]
    (what the parent's later registrations read), and a suite pushed after
    it gets exactly [n]. *)
Theorem retry_count_inheritance :
  ∀ (r : Registry) (nm : string) (n : Z) (below : list DescribeBlock)
    (top : DescribeBlock),
    getCurrentRetryCount r =
      match last (describeStack r) with
      | Some b => retryCount b
      | None => currentRetryCount r
      end
    ∧ describeStack (pushDescribeBlock nm r) =
        (describeStack r ++ [ {| name := nm; retryCount := getCurrentRetryCount r |} ])%list
    ∧ currentRetryCount (setGlobalRetryCount n r) = n
    ∧ describeStack (setGlobalRetryCount n (set_describeStack (below ++ [top]) r)) =
        (below ++ [ {| name := name top; retryCount := n |} ])%list
    ∧ describeStack (setGlobalRetryCount n (set_describeStack [] r)) = []
    ∧ getCurrentRetryCount (setGlobalRetryCount n r) = n
    ∧ describeStack (pushDescribeBlock nm (setGlobalRetryCount n r)) =
        (describeStack (setGlobalRetryCount n r) ++ [ {| name := nm; retryCount := n |} ])%list.
Proof.
  intros r nm n below top.
  split; [apply getCurrentRetryCount_last|].
  split; [apply describeStack_push|].
  split; [apply currentRetryCount_setGlobal|].
  split; [by apply describeStack_setGlobal_snoc|].
  split; [by apply describeStack_setGlobal_empty|].
  split; [apply getCurrentRetryCount_setGlobal|].
  by rewrite describeStack_push, getCurrentRetryCount_setGlobal.
Qed.

(** ** The describe facade and the describe-block stack *)

Lemma depth_entered nm w : depth (entered nm w) = S (depth w).
Proof. apply length_push. Qed.

(** The callback, case by case on how the body ends: the pop is sequenced
    after the body and there is no [finally]. *)
Lemma describeFunction_wrappedFn_unfold nm fn w :
  describeFunction_wrappedFn nm fn w =
  match fn (entered nm w) with
  | (Ok _, w1) => (Ok VUndefined, set_registry (popDescribeBlock (registry w1)) w1)
  | (Throw e, w1) => (Throw e, w1)
  end.
Proof.
  unfold describeFunction_wrappedFn, bind, modify_registry, ret, entered.
  by destruct (fn _) as [[?|?] ?].
Qed.

(** The decorator of [testRetries.ts] sequences the pop in the same way. *)
Lemma enhancedDescribe_callback_same nm fn :
  enhancedDescribe_callback nm (Some fn) = describeFunction_wrappedFn nm fn.
Proof. reflexivity. Qed.

(** The path the push and the pop are written for: a suite body that
    returns, leaving the stack at the depth at which it was entered.  The
    callback returns with the depth it was called at. *)
Lemma describe_stack_balance_on_return :
  ∀ (nm : string) (fn : M value) (w w1 : World) (v : value),
    fn (entered nm w) = (Ok v, w1) →
    depth w1 = depth (entered nm w) →
    ∃ w2,
      describeFunction_wrappedFn nm fn w = (Ok VUndefined, w2)
      ∧ depth w2 = depth w.
Proof.
  intros nm fn w w1 v Hfn Hd.
  rewrite describeFunction_wrappedFn_unfold, Hfn.
  rewrite depth_entered in Hd.
  eexists. split; [reflexivity|].
  unfold depth in *. simpl. rewrite length_removelast, Hd. done.
Qed.

Example describe_stack_balance_on_return_example :
  ∃ w2,
    describeFunction_wrappedFn "suite" (ret (VNumber 1)) initialWorld =
      (Ok VUndefined, w2)
    ∧ depth w2 = depth initialWorld.
Proof.
  exact (describe_stack_balance_on_return "suite" (ret (VNumber 1)) initialWorld
           (entered "suite" initialWorld) (VNumber 1) eq_refl eq_refl).
Defined.

(** C1 at a failing input: [describe('suite', () => { throw 'boom'; })]
    from the initial state.  The callback pushes the entry, the body
    throws, and the pop after it is not reached: the callback ends with the
    thrown value and the stack one entry deeper than before.  The same
    state is left by [describe] itself, under a host that re-throws what
    the callback throws and under a host that records it as the suite's
    failure and returns. *)
Theorem describe_throw_leaves_entry :
  let body : M value := throw (VString "boom") in
  let h := {| mock_module := λ _ n _ _ _, (Ok VUndefined, n);
              suite_runs := λ _, true; suite_rethrows := true |} in
  let hc := {| mock_module := λ _ n _ _ _, (Ok VUndefined, n);
               suite_runs := λ _, true; suite_rethrows := false |} in
  describeFunction_wrappedFn "suite" body initialWorld =
    (Throw (VString "boom"), entered "suite" initialWorld)
  ∧ describeFunction h "suite" (ArgFunction body) None initialWorld =
    (Throw (VString "boom"), entered "suite" initialWorld)
  ∧ describeFunction hc "suite" (ArgFunction body) None initialWorld =
    (Ok VUndefined, entered "suite" initialWorld)
  ∧ depth initialWorld = 0%nat
  ∧ depth (entered "suite" initialWorld) = 1%nat
  ∧ depth (snd (describeFunction_wrappedFn "suite" body initialWorld))
    ≠ depth initialWorld.
Proof. simpl. repeat split; try reflexivity. discriminate. Qed.

(** Under a host that records a throwing suite as failed and goes on, the
    file is loaded to its end and the entry of the failed suite is still on
    the stack. *)
Example failed_suite_stays_on_stack :
  let h := {| mock_module := λ _ n _ _ _, (Ok VUndefined, n);
              suite_runs := λ _, true; suite_rethrows := false |} in
  ∃ w', exec h (SDescribe Plain "A" (SRetryTimes 3 (SThrow VNull)) SDone) initialWorld
          = (Ok VUndefined, w')
        ∧ describeStack (registry w') = [ {| name := "A"; retryCount := 3 |} ].
Proof. eexists. split; reflexivity. Qed.

(** ** The retry loop *)

(** The bound always suffices: the loop makes at most
    [retryCount + 1 - attempt] iterations and then one failed guard. *)
Lemma retry_while_total fn retryCount nm :
  ∀ fuel attempt lastError w,
    (Z.to_nat (retryCount + 1 - attempt) < fuel)%nat →
    is_Some (retry_while fuel fn retryCount nm attempt lastError w).
Proof.
  induction fuel as [|fuel IH]; intros attempt lastError w Hf; [lia|].
  simpl. destruct (Z.leb_spec attempt retryCount) as [Hle|Hgt]; [|eauto].
  destruct (fn w) as [[v|e] w1]; [eauto|].
  destruct (attempt <? retryCount).
  - destruct (get_prop e "message"); [|eauto]. apply IH. lia.
  - apply IH. lia.
Qed.

Lemma handleRetries_total t fn retryCount nm w :
  is_Some (handleRetries t fn retryCount nm w).
Proof. apply retry_while_total. unfold retry_fuel. lia. Qed.

(** A truthy value is neither [undefined] nor [null], so its [message] can
    be read. *)
Lemma truthy_message e :
  truthy e = true → ∃ m, get_prop e "message" = Ok m.
Proof. destruct e; simpl; try discriminate; eauto. Qed.

Lemma readable_message e :
  nullish e = false → ∃ m, get_prop e "message" = Ok m.
Proof. destruct e; simpl; try discriminate; eauto. Qed.

Section FailingBody.

(** A body seen from outside: [Inv i w] says that [w] is a world in which
    the body has been invoked [i] times.  The body fails on invocations
    [1..K], throwing [errors 0 .. errors (K-1)], and returns on invocation
    [K+1]; what the shim writes to the console does not change the count. *)
Variables (fn : M value) (nm : string).
Variables (Inv : nat → World → Prop) (errors : nat → value) (K : nat).
Hypothesis Inv_console : ∀ i w l, Inv i w → Inv i (add_console l w).
Hypothesis fails :
  ∀ i w, (i < K)%nat → Inv i w → ∃ w', fn w = (Throw (errors i), w') ∧ Inv (S i) w'.
Hypothesis succeeds :
  ∀ w, Inv K w → ∃ v w', fn w = (Ok v, w') ∧ Inv (S K) w'.
Hypothesis errors_readable : ∀ i, (i < K)%nat → nullish (errors i) = false.

Lemma retry_while_succeeds retryCount :
  Z.of_nat K ≤ retryCount →
  ∀ d i fuel lastError w,
    K = (i + d)%nat → (d < fuel)%nat → Inv i w →
    ∃ w', retry_while fuel fn retryCount nm (Z.of_nat i) lastError w
            = Some (Ok VUndefined, w')
          ∧ Inv (S K) w'.
Proof.
  intros HK. induction d as [|d IH]; intros i fuel lastError w HKi Hf HI.
  - destruct fuel as [|fuel]; [lia|]. simpl.
    replace (Z.of_nat i <=? retryCount) with true by (symmetry; apply Z.leb_le; lia).
    assert (i = K) as -> by lia.
    destruct (succeeds w HI) as (v & w' & -> & HI'). eauto.
  - destruct fuel as [|fuel]; [lia|]. simpl.
    replace (Z.of_nat i <=? retryCount) with true by (symmetry; apply Z.leb_le; lia).
    destruct (fails i w ltac:(lia) HI) as (w' & -> & HI').
    replace (Z.of_nat i <? retryCount) with true by (symmetry; apply Z.ltb_lt; lia).
    destruct (readable_message (errors i) (errors_readable i ltac:(lia))) as [m ->].
    replace (Z.of_nat i + 1) with (Z.of_nat (S i)) by lia.
    apply IH; [lia|lia|]. by apply Inv_console.
Qed.

Lemma retry_while_exhausts retryCount :
  0 ≤ retryCount → retryCount < Z.of_nat K →
  truthy (errors (Z.to_nat retryCount)) = true →
  ∀ d i fuel lastError w,
    Z.to_nat retryCount = (i + d)%nat → (S d < fuel)%nat → Inv i w →
    ∃ w', retry_while fuel fn retryCount nm (Z.of_nat i) lastError w
            = Some (Throw (errors (Z.to_nat retryCount)), w')
          ∧ Inv (S (Z.to_nat retryCount)) w'.
Proof.
  intros H0 HK Hlast. induction d as [|d IH]; intros i fuel lastError w HNi Hf HI.
  - destruct fuel as [|[|fuel]]; [lia|lia|]. cbn [retry_while].
    replace (Z.of_nat i <=? retryCount) with true by (symmetry; apply Z.leb_le; lia).
    destruct (fails i w ltac:(lia) HI) as (w' & -> & HI').
    replace (Z.of_nat i <? retryCount) with false by (symmetry; apply Z.ltb_ge; lia).
    replace (Z.of_nat i + 1 <=? retryCount) with false by (symmetry; apply Z.leb_gt; lia).
    assert (i = Z.to_nat retryCount) as Hi by lia. rewrite <- Hi in Hlast.
    rewrite Hlast. rewrite <- Hi. eauto.
  - destruct fuel as [|fuel]; [lia|]. simpl.
    replace (Z.of_nat i <=? retryCount) with true by (symmetry; apply Z.leb_le; lia).
    destruct (fails i w ltac:(lia) HI) as (w' & -> & HI').
    replace (Z.of_nat i <? retryCount) with true by (symmetry; apply Z.ltb_lt; lia).
    destruct (readable_message (errors i) (errors_readable i ltac:(lia))) as [m ->].
    replace (Z.of_nat i + 1) with (Z.of_nat (S i)) by lia.
    apply IH; [lia|lia|]. by apply Inv_console.
Qed.

End FailingBody.

Lemma counter_add_console l w : counter (add_console l w) = counter w.
Proof. reflexivity. Qed.

Lemma failing_first_spec errors K t w :
  ∃ w', failing_first errors K t w =
          (if (counter w <? K)%nat then Throw (errors (counter w)) else Ok VUndefined, w')
        ∧ counter w' = S (counter w).
Proof.
  eexists. split; [reflexivity|].
  unfold counter at 1. simpl. rewrite lookup_insert_eq. apply Nat2Z.id.
Qed.

Lemma failing_first_fails errors K t i w :
  (i < K)%nat → counter w = i →
  ∃ w', failing_first errors K t w = (Throw (errors i), w') ∧ counter w' = S i.
Proof.
  intros Hi <-. destruct (failing_first_spec errors K t w) as (w' & E & Hc).
  exists w'. split; [|done]. rewrite E.
  by replace (counter w <? K)%nat with true by (symmetry; apply Nat.ltb_lt; lia).
Qed.

Lemma failing_first_succeeds errors K t w :
  counter w = K →
  ∃ v w', failing_first errors K t w = (Ok v, w') ∧ counter w' = S K.
Proof.
  intros <-. destruct (failing_first_spec errors (counter w) t w) as (w' & E & Hc).
  exists VUndefined, w'. split; [|done]. rewrite E.
  by rewrite Nat.ltb_irrefl.
Qed.

(** Where the loop does what is asked of it.  For a budget [N >= 0] and
    a body that throws [errors 0], ..., [errors (K-1)] on its first [K]
    invocations and returns on the next, none of these values being
    [undefined] or [null]: if [K <= N] the wrapper returns, in a world
    where the body has been invoked [K + 1] times; if [K > N] and the value
    thrown by invocation [N + 1] is truthy, the wrapper throws that very
    value, in a world where the body has been invoked [N + 1] times. *)
Lemma handleRetries_budget :
  ∀ (t : value) (fn : TestFn) (nm : string) (N : Z) (K : nat)
    (Inv : nat → World → Prop) (errors : nat → value) (w : World),
    0 ≤ N →
    Inv 0%nat w →
    (∀ i w l, Inv i w → Inv i (add_console l w)) →
    (∀ i w, (i < K)%nat → Inv i w →
            ∃ w', fn t w = (Throw (errors i), w') ∧ Inv (S i) w') →
    (∀ w, Inv K w → ∃ v w', fn t w = (Ok v, w') ∧ Inv (S K) w') →
    (∀ i, (i < K)%nat → nullish (errors i) = false) →
    (Z.of_nat K ≤ N →
       ∃ w', handleRetries t fn N nm w = Some (Ok VUndefined, w')
             ∧ Inv (S K) w')
    ∧ (N < Z.of_nat K → truthy (errors (Z.to_nat N)) = true →
       ∃ w', handleRetries t fn N nm w = Some (Throw (errors (Z.to_nat N)), w')
             ∧ Inv (S (Z.to_nat N)) w').
Proof.
  intros t fn nm N K Inv errors w HN H0 Hc Hf Hs Hr. split.
  - intros HK.
    apply (retry_while_succeeds (fn t) nm Inv errors K Hc Hf Hs Hr N HK K 0%nat);
      [done|unfold retry_fuel; lia|done].
  - intros HK Hlast.
    apply (retry_while_exhausts (fn t) nm Inv errors K Hc Hf Hr N HN HK Hlast
             (Z.to_nat N) 0%nat); [done|unfold retry_fuel; lia|done].
Qed.

Example handleRetries_budget_example :
  (∃ w', handleRetries VUndefined (failing_first (λ i, error_object i "expected") 1) 2
           "flaky" initialWorld = Some (Ok VUndefined, w')
         ∧ counter w' = 2%nat)
  ∧ (∃ w', handleRetries VUndefined (failing_first (λ i, error_object i "expected") 3) 1
             "flaky" initialWorld = Some (Throw (error_object 1 "expected"), w')
           ∧ counter w' = 2%nat).
Proof.
  split.
  - apply (handleRetries_budget VUndefined
             (failing_first (λ i, error_object i "expected") 1) "flaky" 2 1
             (λ i w, counter w = i) (λ i, error_object i "expected") initialWorld);
      [lia | reflexivity | intros; assumption
      | intros i w' Hi Hw'; exact (failing_first_fails _ 1 VUndefined i w' Hi Hw')
      | intros w' Hw'; exact (failing_first_succeeds _ 1 VUndefined w' Hw')
      | reflexivity | lia].
  - apply (handleRetries_budget VUndefined
             (failing_first (λ i, error_object i "expected") 3) "flaky" 1 3
             (λ i w, counter w = i) (λ i, error_object i "expected") initialWorld);
      [lia | reflexivity | intros; assumption
      | intros i w' Hi Hw'; exact (failing_first_fails _ 3 VUndefined i w' Hi Hw')
      | intros w' Hw'; exact (failing_first_succeeds _ 3 VUndefined w' Hw')
      | reflexivity | lia | reflexivity].
Defined.

(** C3 at a failing input: [jest.retryTimes(1); test('t', () => { throw
    0; })].  Both attempts throw the number 0; the loop stores it in
    [lastError], leaves the loop after two invocations, and the final
    [if (lastError)] is false for it: the wrapper returns normally instead
    of throwing the value of the second attempt, and so does the wrapper of
    [test] when the registry holds the count 1.  With the count 0 the
    wrapper of [test] calls the body directly and the same throw does reach
    the host. *)
Theorem falsy_failure_not_rethrown :
  let body := failing_first (λ _, VNumber 0) 2 in
  let w := set_registry (setGlobalRetryCount 1 initialRegistry) initialWorld in
  ∃ w' w'' w0,
    handleRetries VUndefined body 1 "t" w = Some (Ok VUndefined, w')
    ∧ counter w' = 2%nat
    ∧ handleRetries VUndefined body 1 "t" w ≠ Some (Throw (VNumber 0), w')
    ∧ testFunction_wrappedFn "t" body VUndefined w = Some (Ok VUndefined, w'')
    ∧ counter w'' = 2%nat
    ∧ testFunction_wrappedFn "t" body VUndefined initialWorld
      = Some (Throw (VNumber 0), w0)
    ∧ counter w0 = 1%nat.
Proof.
  eexists _, _, _. split; [reflexivity|]. split; [reflexivity|].
  split; [discriminate|]. split; [reflexivity|]. split; [reflexivity|].
  split; reflexivity.
Qed.

(** [jest.retryTimes(2)] and a test that fails once: one retry line, two
    invocations, and the test passes. *)
Example retry_once_then_pass :
  let body := failing_first (λ i, error_object i "expected") 1 in
  let w := set_registry (setGlobalRetryCount 2 initialRegistry) initialWorld in
  ∃ w', testFunction_wrappedFn "t" body (VObject 9 false []) w = Some (Ok VUndefined, w')
        ∧ counter w' = 2%nat
        ∧ console w' = [LogRetry "t" 1 (VString "expected")]
        ∧ currentTestContext (registry w') = VObject 9 false [].
Proof. eexists. repeat split. Qed.

Section FalsyBody.

(** A body that throws a falsy value on every invocation; when the budget
    allows a retry the value is not [undefined] or [null]. *)
Variables (fn : M value) (nm : string) (retryCount : Z).
Variable Inv : nat → World → Prop.
Hypothesis Inv_console : ∀ i w l, Inv i w → Inv i (add_console l w).
Hypothesis throws_falsy :
  ∀ i w, Inv i w →
    ∃ e w', fn w = (Throw e, w') ∧ truthy e = false
            ∧ (0 < retryCount → nullish e = false) ∧ Inv (S i) w'.


End FalsyBody.





(** ** When the retry budget is read *)

(** [withRetries] reads the count once, when the test is registered; the
    wrapper it registers does not look at the registry again. *)
Lemma withRetries_budget_fixed_at_registration r nm fn :
  reg_fn (withRetries r nm (OptFunction fn) None) =
    Some (withRetries_wrappedFn nm fn (getCurrentRetryCount r)).
Proof. reflexivity. Qed.

Lemma getCurrentRetryCount_setCurrentTestContext t r :
  getCurrentRetryCount (setCurrentTestContext t r) = getCurrentRetryCount r.
Proof. reflexivity. Qed.

(** The wrapper of [createTestFunction] is built without reading the
    registry and reads the count each time the host invokes it. *)
Lemma testFunction_budget_read_at_invocation nm fn t w :
  reg_fn (testFunction nm (ArgFunction fn) ArgUndefined) =
    Some (testFunction_wrappedFn nm fn)
  ∧ testFunction_wrappedFn nm fn t w =
    let w1 := set_registry (setCurrentTestContext t (registry w)) w in
    if getCurrentRetryCount (registry w) >? 0
    then handleRetries t fn (getCurrentRetryCount (registry w)) nm w1
    else Some (fn t w1).
Proof. split; reflexivity. Qed.

(** C2 at a failing input: [jest.retryTimes(2); test('t', body);
    jest.retryTimes(0);] and then the host runs the test, with a body that
    fails once.  [getCurrentRetryCount()] is 2 when the test is registered
    and 0 when it runs.  The test registered through [testFunction] gets no
    retry: one invocation, and the first failure is the result.  The same
    registration through [withRetries] runs under the budget 2 read at
    registration and passes on the second invocation. *)
Theorem testFunction_budget_follows_registry :
  let err := error_object 7 "expected" in
  let body := failing_first (λ _, err) 1 in
  let r_registered := setGlobalRetryCount 2 initialRegistry in
  let r_run := setGlobalRetryCount 0 r_registered in
  let w_run := set_registry r_run initialWorld in
  getCurrentRetryCount r_registered = 2
  ∧ getCurrentRetryCount r_run = 0
  ∧ (∃ f w', reg_fn (testFunction "t" (ArgFunction body) ArgUndefined) = Some f
             ∧ f VUndefined w_run = Some (Throw err, w')
             ∧ counter w' = 1%nat)
  ∧ (∃ f w', reg_fn (withRetries r_registered "t" (OptFunction body) None) = Some f
             ∧ f VUndefined w_run = Some (Ok VUndefined, w')
             ∧ counter w' = 2%nat).
Proof.
  repeat split.
  - eexists _, _. repeat split.
  - eexists _, _. repeat split.
Qed.

(** ** Module mocks *)

(** C5. [mockModule] on a module name that is already in [mockedModules]
    returns [undefined] and leaves the whole world as it was, whatever the
    factory is: the factory is not run, [test.mock.module] is not called
    (the host trace is unchanged) and the stored context is the one that
    was there. *)
Theorem mockModule_already_mocked :
  ∀ (h : Host) (moduleName : string) (factory : option (M value)) (w : World),
    is_Some (mockedModules (registry w) !! moduleName) →
    mockModule h moduleName factory w = (Ok VUndefined, w).
Proof.
  intros h moduleName factory w Hm.
  unfold mockModule, bind, read_registry, hasMockedModule.
  by rewrite bool_decide_eq_true_2.
Qed.

Lemma mockModule_already_mocked_witness :
  mockModule example_host "fs" (Some marking_factory) fs_mocked
  = (Ok VUndefined, fs_mocked).
Proof.
  apply (mockModule_already_mocked example_host "fs" (Some marking_factory) fs_mocked).
  vm_compute. eauto.
Defined.

Lemma invoke_method target method f w :
  get_prop target method = Ok f → is_function f = true →
  invoke target method w = (Ok VUndefined, add_host (MethodCall target method) w).
Proof. intros Hp Hf. unfold invoke, bind, lift. by rewrite Hp, Hf. Qed.

Lemma hasMockedModule_false moduleName r :
  hasMockedModule moduleName r = false ↔ mockedModules r !! moduleName = None.
Proof.
  unfold hasMockedModule. rewrite bool_decide_eq_false, <- eq_None_not_Some. done.
Qed.

(** [mockModule] on a name that is not mocked, when the factory returns,
    the exports can be read and the host accepts the substitution. *)
Lemma mockModule_fresh h moduleName factory exports defaultExport mockContext next w w2 :
  mockedModules (registry w) !! moduleName = None →
  match factory with Some f => f | None => new_object end w = (Ok exports, w2) →
  defaultExport_of exports = Ok defaultExport →
  mock_module h (host w2) (heapNext w2) moduleName defaultExport exports
    = (Ok mockContext, next) →
  mockModule h moduleName factory w =
    (Ok mockContext,
     set_registry (registerMockedModule moduleName mockContext (registry w2))
       (set_heapNext next
          (add_host (MockModuleCall moduleName defaultExport exports) w2))).
Proof.
  intros Hnone Hfac Hdef Hhost.
  unfold mockModule, bind at 1, read_registry.
  rewrite (proj2 (hasMockedModule_false _ _) Hnone).
  unfold bind at 1. rewrite Hfac.
  unfold try_catch, bind, lift, test_mock_module, modify_registry, ret.
  rewrite Hdef.
  assert (namedExports_of exports = Ok exports) as ->.
  { unfold defaultExport_of in Hdef. unfold namedExports_of.
    destruct (get_prop exports "__esModule"); [by destruct (truthy _)|done]. }
  by rewrite Hhost.
Qed.

(** C6. For a mocked module whose stored context is an object with a
    [restore] method: [unmockModule] calls [restore] on that context and
    then deletes the entry; after it the name is not mocked, and a
    following [mockModule] for the same name runs the factory, calls
    [test.mock.module] and stores the context the host returns. *)
Theorem unmock_then_mock_again :
  ∀ (h : Host) (moduleName : string) (ctx restore : value)
    (factory : option (M value)) (exports defaultExport ctx' : value)
    (next : nat) (w w2 : World),
    mockedModules (registry w) !! moduleName = Some ctx →
    truthy ctx = true →
    get_prop ctx "restore" = Ok restore →
    is_function restore = true →
    match factory with Some f => f | None => new_object end
      (snd (unmockModule moduleName w)) = (Ok exports, w2) →
    defaultExport_of exports = Ok defaultExport →
    mock_module h (host w2) (heapNext w2) moduleName defaultExport exports
      = (Ok ctx', next) →
    ∃ w1 w3,
      unmockModule moduleName w = (Ok tt, w1)
      ∧ host w1 = (host w ++ [MethodCall ctx "restore"])%list
      ∧ mockedModules (registry w1) = delete moduleName (mockedModules (registry w))
      ∧ hasMockedModule moduleName (registry w1) = false
      ∧ mockModule h moduleName factory w1 = (Ok ctx', w3)
      ∧ host w3 = (host w2 ++ [MockModuleCall moduleName defaultExport exports])%list
      ∧ mockedModules (registry w3) !! moduleName = Some ctx'.
Proof.
  intros h moduleName ctx restore factory exports defaultExport ctx' next w w2
    Hctx Htruthy Hprop Hfun Hfac Hdef Hhost.
  assert (unmockModule moduleName w =
          (Ok tt,
           set_registry
             (set_mockedModules (delete moduleName (mockedModules (registry w)))
                (registry w))
             (add_host (MethodCall ctx "restore") w))) as Hun.
  { unfold unmockModule, bind at 1, read_registry, getMockedModule.
    rewrite Hctx. simpl. rewrite Htruthy.
    unfold bind. by rewrite (invoke_method _ _ _ _ Hprop Hfun). }
  rewrite Hun in Hfac |- *. simpl in Hfac.
  eexists _, _. split; [reflexivity|].
  split; [reflexivity|]. split; [reflexivity|].
  assert (mockedModules
            (registry
               (set_registry
                  (set_mockedModules (delete moduleName (mockedModules (registry w)))
                     (registry w))
                  (add_host (MethodCall ctx "restore") w))) !! moduleName = None) as Hnone.
  { simpl. apply lookup_delete_eq. }
  split; [by apply hasMockedModule_false|].
  split; [exact (mockModule_fresh h moduleName factory exports defaultExport ctx'
                   next _ w2 Hnone Hfac Hdef Hhost)|].
  split; [reflexivity|].
  simpl. apply lookup_insert_eq.
Qed.

(** ["fs"] mocked, unmocked, and mocked again with a factory. *)
Lemma unmock_then_mock_again_witness :
  ∃ w1 w3,
    unmockModule "fs" fs_mocked = (Ok tt, w1)
    ∧ host w1 = [MethodCall (mock_context 0) "restore"]
    ∧ mockedModules (registry w1) = delete "fs" (mockedModules (registry fs_mocked))
    ∧ hasMockedModule "fs" (registry w1) = false
    ∧ mockModule example_host "fs" (Some marking_factory) w1 = (Ok (mock_context 4), w3)
    ∧ host w3 =
        [MethodCall (mock_context 0) "restore";
         MockModuleCall "fs"
           (VObject 2 false [("readFileSync", VObject 3 true [])])
           (VObject 2 false [("readFileSync", VObject 3 true [])])]
    ∧ mockedModules (registry w3) !! "fs" = Some (mock_context 4).
Proof.
  exact (unmock_then_mock_again example_host "fs" (mock_context 0)
           (VObject 1 true []) (Some marking_factory)
           (VObject 2 false [("readFileSync", VObject 3 true [])])
           (VObject 2 false [("readFileSync", VObject 3 true [])])
           (mock_context 4) 6%nat fs_mocked _
           eq_refl eq_refl eq_refl eq_refl eq_refl eq_refl eq_refl).
Defined.

(** ** Mocks and spies *)

Lemma add_hosts_nil w : add_hosts [] w = w.
Proof. destruct w. unfold add_hosts. simpl. by rewrite app_nil_r. Qed.

Lemma add_hosts_cons e es w : add_hosts es (add_host e w) = add_hosts (e :: es) w.
Proof. unfold add_hosts, add_host. simpl. by rewrite <- app_assoc. Qed.

Lemma invoke_if_function_readable v method w :
  nullish v = false →
  invoke_if_function v method w =
    (Ok tt, if has_method v method then add_host (MethodCall v method) w else w).
Proof.
  intros Hv. unfold invoke_if_function, has_method, bind at 1, lift.
  destruct (get_prop v method) as [f|e] eqn:Hp.
  - destruct (is_function f) eqn:Hf; [|done].
    unfold bind. by rewrite (invoke_method _ _ _ _ Hp Hf).
  - by destruct v.
Qed.

Lemma for_each_restore spies :
  Forall (λ entry : value * SpyInfo, nullish (fst entry) = false) spies →
  ∀ w, for_each (λ entry : value * SpyInfo,
                   invoke_if_function (fst entry) "mockRestore") spies w
       = (Ok tt, add_hosts (restore_calls spies) w).
Proof.
  induction 1 as [|entry spies Hentry _ IH]; intros w.
  - simpl. unfold ret. by rewrite add_hosts_nil.
  - simpl. unfold bind. rewrite (invoke_if_function_readable _ _ _ Hentry).
    rewrite IH. unfold restore_calls. rewrite filter_cons.
    destruct (has_method (fst entry) "mockRestore") eqn:Hm.
    + rewrite decide_True by done. simpl. by rewrite add_hosts_cons.
    + rewrite decide_False by done. done.
Qed.

(** C7. When every tracked spy is a value whose properties can be read
    (not [undefined] or [null]; [spyOn] returns functions),
    [restoreAllMocks] calls [mockRestore] on each tracked spy that has it,
    in the order of the map, empties the spy map and leaves [createdMocks]
    as it was; a second call right after it returns without a throw and
    changes nothing, so no [mockRestore] is called again. *)
Theorem restoreAllMocks_idempotent :
  ∀ w : World,
    Forall (λ entry : value * SpyInfo, nullish (fst entry) = false)
           (spiedFunctions (registry w)) →
    ∃ w1,
      restoreAllMocks w = (Ok tt, w1)
      ∧ host w1 = (host w ++ restore_calls (spiedFunctions (registry w)))%list
      ∧ spiedFunctions (registry w1) = []
      ∧ createdMocks (registry w1) = createdMocks (registry w)
      ∧ restoreAllMocks w1 = (Ok tt, w1).
Proof.
  intros w Hspies.
  assert (restoreAllMocks w =
          (Ok tt,
           set_registry (set_spiedFunctions [] (registry w))
             (add_hosts (restore_calls (spiedFunctions (registry w))) w))) as E.
  { unfold restoreAllMocks, bind at 1, read_registry.
    unfold bind. by rewrite (for_each_restore _ Hspies). }
  eexists. split; [exact E|].
  do 3 (split; [reflexivity|]).
  reflexivity.
Qed.

Lemma restoreAllMocks_idempotent_witness :
  ∃ w1,
    restoreAllMocks two_spies = (Ok tt, w1)
    ∧ host w1 = [MethodCall (spy_function 10) "mockRestore";
                 MethodCall (spy_function 20) "mockRestore"]
    ∧ spiedFunctions (registry w1) = []
    ∧ createdMocks (registry w1) = [spy_function 10; spy_function 20]
    ∧ restoreAllMocks w1 = (Ok tt, w1).
Proof.
  apply (restoreAllMocks_idempotent two_spies).
  vm_compute. repeat constructor.
Defined.

(** ** [isMockFunction] *)

Lemma isMockFunction_truthy fn :
  truthy fn = true →
  ∃ flag, get_prop fn "_isMockFunction" = Ok flag
          ∧ isMockFunction fn = Ok (VBool (truthy flag)).
Proof.
  intros Ht. unfold isMockFunction. rewrite Ht.
  destruct fn; simpl in *; try discriminate; eauto.
Qed.

Lemma isMockFunction_falsy fn :
  truthy fn = false → isMockFunction fn = Ok fn.
Proof. intros Ht. unfold isMockFunction. by rewrite Ht. Qed.

(** C8 at failing inputs: for [null], [undefined], [0], [NaN] and the empty
    string, [fn && !!fn._isMockFunction] is [fn] itself, which is not a
    boolean. *)
Theorem isMockFunction_returns_falsy_argument :
  isMockFunction VNull = Ok VNull
  ∧ isMockFunction VUndefined = Ok VUndefined
  ∧ isMockFunction (VNumber 0) = Ok (VNumber 0)
  ∧ isMockFunction VNaN = Ok VNaN
  ∧ isMockFunction (VString "") = Ok (VString "")
  ∧ is_boolean VNull = false
  ∧ isMockFunction (spy_function 10) = Ok (VBool true)
  ∧ isMockFunction (VObject 5 true []) = Ok (VBool false).
Proof. repeat split. Qed.

(** ** Only mode *)

Lemma keeps_only_ret {A} (a : A) : keeps_only (ret a).
Proof. by intros w. Qed.

Lemma keeps_only_throw {A} e : keeps_only (@throw A e).
Proof. by intros w. Qed.

Lemma keeps_only_bind {A B} (m : M A) (k : A → M B) :
  keeps_only m → (∀ a, keeps_only (k a)) → keeps_only (bind m k).
Proof.
  intros Hm Hk w Hw. unfold bind. specialize (Hm w Hw).
  destruct (m w) as [[a|e] w1]; simpl in *; [by apply Hk|done].
Qed.

Lemma keeps_only_try_catch {A} (m : M A) (hd : value → M A) :
  keeps_only m → (∀ e, keeps_only (hd e)) → keeps_only (try_catch m hd).
Proof.
  intros Hm Hh w Hw. unfold try_catch. specialize (Hm w Hw).
  destruct (m w) as [[a|e] w1]; simpl in *; [done|by apply Hh].
Qed.

Lemma keeps_only_modify (f : Registry → Registry) :
  (∀ r, onlyMode (f r) = onlyMode r) → keeps_only (modify_registry f).
Proof. intros Hf w Hw. unfold only_on in *. simpl. by rewrite Hf. Qed.

Lemma onlyMode_setGlobalRetryCount n r :
  onlyMode (setGlobalRetryCount n r) = onlyMode r.
Proof. unfold setGlobalRetryCount. simpl. by destruct (0 <? _)%nat. Qed.

Lemma keeps_only_retryTimes n : keeps_only (testFunction_retryTimes n).
Proof. apply keeps_only_modify. intros r. apply onlyMode_setGlobalRetryCount. Qed.

Lemma sets_only_setOnlyMode : sets_only (modify_registry (setOnlyMode true)).
Proof. by intros w. Qed.

Lemma sets_only_bind {A B} (m : M A) (k : A → M B) :
  sets_only m → (∀ a, keeps_only (k a)) → sets_only (bind m k).
Proof.
  intros Hm Hk w. unfold bind. specialize (Hm w).
  destruct (m w) as [[a|e] w1]; simpl in *; [by apply Hk|done].
Qed.

Lemma sets_only_keeps_only {A} (m : M A) : sets_only m → keeps_only m.
Proof. intros Hm w _. apply Hm. Qed.

Lemma sets_only_testFunction_only nm fn tmo :
  sets_only (testFunction_only nm fn tmo).
Proof.
  apply sets_only_bind; [apply sets_only_setOnlyMode|intros _; apply keeps_only_ret].
Qed.

Lemma keeps_only_testFunction_only nm fn tmo :
  keeps_only (testFunction_only nm fn tmo).
Proof. apply sets_only_keeps_only, sets_only_testFunction_only. Qed.

Lemma keeps_only_register_test v nm fn : keeps_only (register_test v nm fn).
Proof.
  destruct v; simpl;
    [apply keeps_only_ret|apply keeps_only_testFunction_only|apply keeps_only_ret].
Qed.

Lemma keeps_only_wrappedFn nm fn :
  keeps_only fn → keeps_only (describeFunction_wrappedFn nm fn).
Proof.
  intros Hfn. unfold describeFunction_wrappedFn.
  apply keeps_only_bind; [by apply keeps_only_modify|intros _].
  apply keeps_only_bind; [done|intros _].
  apply keeps_only_bind; [by apply keeps_only_modify|intros _].
  apply keeps_only_ret.
Qed.

Lemma keeps_only_nodeDescribe h nm options fn :
  (∀ f, fn = Some f → keeps_only f) → keeps_only (nodeDescribe h nm options fn).
Proof.
  intros Hfn. unfold nodeDescribe. destruct fn as [f|]; [|apply keeps_only_ret].
  destruct (suite_runs h options); [|apply keeps_only_ret].
  destruct (suite_rethrows h); [by apply Hfn|].
  apply keeps_only_try_catch; [by apply Hfn|intros; apply keeps_only_ret].
Qed.

Lemma keeps_only_describeFunction h nm a fn :
  (∀ f, a = ArgFunction f → keeps_only f) →
  (∀ f, fn = Some f → keeps_only f) →
  keeps_only (describeFunction h nm a fn).
Proof.
  intros Ha Hfn. unfold describeFunction.
  destruct a as [f|o|n| |]; apply keeps_only_nodeDescribe; intros g Hg.
  - simpl in Hg. injection Hg as <-. apply keeps_only_wrappedFn. by apply Ha.
  - destruct fn as [f|]; simpl in Hg; [|done]. injection Hg as <-.
    apply keeps_only_wrappedFn. by apply Hfn.
  - destruct fn as [f|]; simpl in Hg; [|done]. injection Hg as <-.
    apply keeps_only_wrappedFn. by apply Hfn.
  - destruct fn as [f|]; simpl in Hg; [|done]. injection Hg as <-.
    apply keeps_only_wrappedFn. by apply Hfn.
  - destruct fn as [f|]; simpl in Hg; [|done]. injection Hg as <-.
    apply keeps_only_wrappedFn. by apply Hfn.
Qed.

Lemma keeps_only_register_suite h v nm fn :
  keeps_only fn → keeps_only (register_suite h v nm fn).
Proof.
  intros Hfn. destruct v; simpl.
  - apply keeps_only_describeFunction; [by intros f [= <-]|done].
  - unfold describeFunction_only.
    apply keeps_only_bind;
      [apply sets_only_keeps_only, sets_only_setOnlyMode|intros _].
    apply keeps_only_describeFunction; [done|by intros f [= <-]].
  - apply keeps_only_describeFunction; [done|by intros f [= <-]].
Qed.

Lemma keeps_only_exec h s : keeps_only (exec h s).
Proof.
  induction s as [|e|f k IHk|n k IHk|v nm body IHb k IHk|nm k IHk
                 |v nm body IHb k IHk|nm body IHb k IHk]; simpl.
  - apply keeps_only_ret.
  - apply keeps_only_throw.
  - apply keeps_only_bind; [by intros w Hw|done].
  - apply keeps_only_bind; [apply keeps_only_retryTimes|done].
  - apply keeps_only_bind; [apply keeps_only_register_test|done].
  - apply keeps_only_bind; [apply keeps_only_ret|done].
  - apply keeps_only_bind; [by apply keeps_only_register_suite|done].
  - apply keeps_only_bind; [|done].
    apply keeps_only_describeFunction; [done|by intros f [= <-]].
Qed.

Lemma retry_while_keeps_only fn retryCount nm :
  keeps_only fn →
  ∀ fuel attempt lastError w r w',
    retry_while fuel fn retryCount nm attempt lastError w = Some (r, w') →
    only_on w → only_on w'.
Proof.
  intros Hfn. induction fuel as [|fuel IH]; intros attempt lastError w r w' E Hw;
    [done|]. simpl in E.
  destruct (attempt <=? retryCount); [|by injection E as _ <-].
  specialize (Hfn w Hw). destruct (fn w) as [[v|e] w1]; simpl in Hfn.
  - by injection E as _ <-.
  - destruct (attempt <? retryCount).
    + destruct (get_prop e "message"); [|by injection E as _ <-].
      by apply (IH _ _ _ _ _ E).
    + by apply (IH _ _ _ _ _ E).
Qed.

Lemma testFunction_wrappedFn_keeps_only nm fn t w r w' :
  keeps_only (fn t) →
  testFunction_wrappedFn nm fn t w = Some (r, w') →
  only_on w → only_on w'.
Proof.
  intros Hfn E Hw. unfold testFunction_wrappedFn in E.
  set (w1 := set_registry (setCurrentTestContext t (registry w)) w) in *.
  assert (only_on w1) as Hw1 by exact Hw.
  destruct (_ >? 0).
  - by apply (retry_while_keeps_only _ _ _ Hfn _ _ _ _ _ _ E).
  - injection E as E. specialize (Hfn w1 Hw1). by rewrite E in Hfn.
Qed.

(** C9.  [onlyMode] is one boolean of the registry.  [test.only] and
    [describe.only] leave it true, whatever it was, whatever the rest of
    the file does and whatever the host does with the suite.  Once it is
    true, no program over [test], [describe], their [only]/[skip]/[todo]
    and [retryTimes] clears it, neither while a file is loaded nor while a
    registered test runs under its wrapper. *)
Theorem only_mode_never_cleared :
  ∀ (h : Host) (nm : string) (s k : Script) (t : value) (w : World),
    onlyMode (registry (snd (exec h (STest Only nm s k) w))) = true
    ∧ onlyMode (registry (snd (exec h (SDescribe Only nm s k) w))) = true
    ∧ (onlyMode (registry w) = true →
         onlyMode (registry (snd (exec h s w))) = true
         ∧ ∀ r w', testFunction_wrappedFn nm (λ _, exec h s) t w = Some (r, w') →
                   onlyMode (registry w') = true).
Proof.
  intros h nm s k t w. split; [|split].
  - apply (sets_only_bind (testFunction_only nm (Some (λ _, exec h s)) None));
      [apply sets_only_testFunction_only|intros _; apply keeps_only_exec].
  - apply (sets_only_bind (describeFunction_only h nm (Some (exec h s))));
      [|intros _; apply keeps_only_exec].
    apply sets_only_bind; [apply sets_only_setOnlyMode|intros _].
    apply keeps_only_describeFunction; [done|intros f [= <-]; apply keeps_only_exec].
  - intros Hw. split; [by apply keeps_only_exec|].
    intros r w' E. apply (testFunction_wrappedFn_keeps_only _ _ _ _ _ _ (keeps_only_exec h s) E Hw).
Qed.

Lemma only_mode_never_cleared_witness :
  let w := set_registry (setOnlyMode true initialRegistry) initialWorld in
  onlyMode (registry (snd (exec example_host only_then_sibling w))) = true
  ∧ ∀ r w', testFunction_wrappedFn "t" (λ _, exec example_host only_then_sibling)
              VUndefined w = Some (r, w') →
            onlyMode (registry w') = true.
Proof.
  exact (proj2 (proj2 (only_mode_never_cleared example_host "t" only_then_sibling
                         SDone VUndefined
                         (set_registry (setOnlyMode true initialRegistry) initialWorld)))
           eq_refl).
Defined.

(** From the initial world the flag is false, and it is true after the
    file above has been loaded. *)
Example only_then_sibling_sets_flag :
  onlyMode (registry initialWorld) = false
  ∧ onlyMode (registry (snd (exec example_host only_then_sibling initialWorld))) = true
  ∧ depth (snd (exec example_host only_then_sibling initialWorld)) = 0%nat.
Proof. repeat split. Qed.

(** * Further properties of the code *)

(** ** The describe-block stack *)

(** X1. Popping undoes a push exactly: the registry after
    [pushDescribeBlock] and [popDescribeBlock] is the registry before; and
    [popDescribeBlock] on an empty stack changes nothing. *)
Theorem push_pop_restores_registry :
  ∀ (r : Registry) (nm : string),
    popDescribeBlock (pushDescribeBlock nm r) = r
    ∧ popDescribeBlock (set_describeStack [] r) = set_describeStack [] r.
Proof.
  intros [] nm. split; [|reflexivity].
  unfold popDescribeBlock, pushDescribeBlock, set_describeStack. simpl.
  by rewrite removelast_last.
Qed.

(** X2. A [retryTimes(n)] made inside a suite does not reach the entries
    of the enclosing suites: after the suite is popped the stack is what it
    was.  It does stay as the global default, so after a top-level suite
    (empty stack) the count in force is [n], while inside an enclosing suite
    it is the enclosing suite's own count again. *)
Theorem retryTimes_scope :
  ∀ (r : Registry) (nm : string) (n : Z),
    describeStack (popDescribeBlock (setGlobalRetryCount n (pushDescribeBlock nm r)))
      = describeStack r
    ∧ currentRetryCount
        (popDescribeBlock (setGlobalRetryCount n (pushDescribeBlock nm r))) = n
    ∧ getCurrentRetryCount
        (popDescribeBlock (setGlobalRetryCount n (pushDescribeBlock nm r)))
      = match last (describeStack r) with
        | Some b => retryCount b
        | None => n
        end.
Proof.
  intros r nm n.
  assert (describeStack (popDescribeBlock (setGlobalRetryCount n (pushDescribeBlock nm r)))
          = describeStack r) as Hs.
  { rewrite describeStack_pop.
    rewrite (describeStack_setGlobal_snoc _ n _ _ (describeStack_push r nm)).
    apply removelast_last. }
  assert (currentRetryCount
            (popDescribeBlock (setGlobalRetryCount n (pushDescribeBlock nm r))) = n) as Hc.
  { change (currentRetryCount (setGlobalRetryCount n (pushDescribeBlock nm r)) = n).
    apply currentRetryCount_setGlobal. }
  split; [exact Hs|]. split; [exact Hc|].
  by rewrite getCurrentRetryCount_last, Hs, Hc.
Qed.

(** ** Combinators that keep a property of the world *)

Section Preserving.

Variable P : World → Prop.

Lemma preserves_ret {A} (a : A) : preserves P (ret a).
Proof. by intros w. Qed.

Lemma preserves_throw {A} e : preserves P (@throw A e).
Proof. by intros w. Qed.

Lemma preserves_bind {A B} (m : M A) (k : A → M B) :
  preserves P m → (∀ a, preserves P (k a)) → preserves P (bind m k).
Proof.
  intros Hm Hk w Hw. unfold bind. specialize (Hm w Hw).
  destruct (m w) as [[a|e] w1]; simpl in *; [by apply Hk|done].
Qed.

Lemma preserves_try_catch {A} (m : M A) (hd : value → M A) :
  preserves P m → (∀ e, preserves P (hd e)) → preserves P (try_catch m hd).
Proof.
  intros Hm Hh w Hw. unfold try_catch. specialize (Hm w Hw).
  destruct (m w) as [[a|e] w1]; simpl in *; [done|by apply Hh].
Qed.

Lemma preserves_nodeDescribe h nm options fn :
  (∀ f, fn = Some f → preserves P f) → preserves P (nodeDescribe h nm options fn).
Proof.
  intros Hfn. unfold nodeDescribe. destruct fn as [f|]; [|apply preserves_ret].
  destruct (suite_runs h options); [|apply preserves_ret].
  destruct (suite_rethrows h); [by apply Hfn|].
  apply preserves_try_catch; [by apply Hfn|intros; apply preserves_ret].
Qed.

Hypothesis P_console : ∀ l w, P w → P (add_console l w).

Lemma retry_while_preserves fn retryCount nm :
  preserves P fn →
  ∀ fuel attempt lastError w r w',
    retry_while fuel fn retryCount nm attempt lastError w = Some (r, w') →
    P w → P w'.
Proof.
  intros Hfn. induction fuel as [|fuel IH]; intros attempt lastError w r w' E Hw;
    [done|]. simpl in E.
  destruct (attempt <=? retryCount); [|by injection E as _ <-].
  specialize (Hfn w Hw). destruct (fn w) as [[v|e] w1]; simpl in Hfn.
  - by injection E as _ <-.
  - destruct (attempt <? retryCount).
    + destruct (get_prop e "message"); [|by injection E as _ <-].
      apply (IH _ _ _ _ _ E). by apply P_console.
    + by apply (IH _ _ _ _ _ E).
Qed.

End Preserving.

(** ** Files without [throw]: the stack is balanced *)

Lemma same_but_top_count_refl l : same_but_top_count l l.
Proof. by split. Qed.

Lemma same_but_top_count_trans l1 l2 l3 :
  same_but_top_count l1 l2 → same_but_top_count l2 l3 → same_but_top_count l1 l3.
Proof. intros [H1 H2] [H3 H4]. split; congruence. Qed.

Lemma same_but_top_count_setGlobal n r :
  same_but_top_count (describeStack r) (describeStack (setGlobalRetryCount n r)).
Proof.
  destruct (describeStack r) as [|b l] eqn:E using rev_ind.
  - rewrite (describeStack_setGlobal_empty _ _ E). apply same_but_top_count_refl.
  - rewrite (describeStack_setGlobal_snoc _ _ _ _ E). split.
    + by rewrite !map_app.
    + by rewrite !removelast_last.
Qed.

(** A suite whose body returns and changes at most the count of the top
    entry: after [describe] the stack is what it was, whether the host runs
    the callback or not. *)
Lemma nodeDescribe_balanced h nm options fn :
  (∀ w, ∃ w', fn w = (Ok VUndefined, w')
              ∧ same_but_top_count (describeStack (registry w))
                                   (describeStack (registry w'))) →
  ∀ w, ∃ w', nodeDescribe h nm options (Some (describeFunction_wrappedFn nm fn)) w
               = (Ok VUndefined, w')
             ∧ describeStack (registry w') = describeStack (registry w).
Proof.
  intros Hfn w.
  assert (∃ w', describeFunction_wrappedFn nm fn w = (Ok VUndefined, w')
                ∧ describeStack (registry w') = describeStack (registry w)) as Hw.
  { rewrite describeFunction_wrappedFn_unfold.
    destruct (Hfn (entered nm w)) as (w1 & -> & _ & Hr).
    eexists. split; [reflexivity|]. simpl. rewrite Hr. simpl.
    by rewrite removelast_last. }
  unfold nodeDescribe. destruct (suite_runs h options); [|by exists w].
  destruct Hw as (w' & E & Hs).
  destruct (suite_rethrows h); [by exists w'|].
  exists w'. unfold try_catch. by rewrite E.
Qed.

Lemma register_suite_balanced h v nm fn :
  (∀ w, ∃ w', fn w = (Ok VUndefined, w')
              ∧ same_but_top_count (describeStack (registry w))
                                   (describeStack (registry w'))) →
  ∀ w, ∃ w', register_suite h v nm fn w = (Ok VUndefined, w')
             ∧ describeStack (registry w') = describeStack (registry w).
Proof.
  intros Hfn w. destruct v.
  - exact (nodeDescribe_balanced h nm noOptions fn Hfn w).
  - destruct (nodeDescribe_balanced h nm
                {| only := true; skip := false; todo := false; timeout := None |}
                fn Hfn (set_registry (setOnlyMode true (registry w)) w))
      as (w1 & E1 & H1).
    exists w1. split; [exact E1|exact H1].
  - exact (nodeDescribe_balanced h nm
             {| only := false; skip := true; todo := false; timeout := None |}
             fn Hfn w).
Qed.

Lemma exec_throw_free h s :
  throw_free s = true →
  ∀ w, ∃ w', exec h s w = (Ok VUndefined, w')
             ∧ same_but_top_count (describeStack (registry w))
                                  (describeStack (registry w')).
Proof.
  induction s as [|e|f k IHk|n k IHk|v nm body IHb k IHk|nm k IHk
                 |v nm body IHb k IHk|nm body IHb k IHk];
    intros Htf w; cbn [exec throw_free] in *.
  - exists w. split; [done|apply same_but_top_count_refl].
  - done.
  - exact (IHk Htf (set_vars (f (vars w)) w)).
  - destruct (IHk Htf (set_registry (setGlobalRetryCount n (registry w)) w))
      as (w' & E & HR).
    exists w'. split; [exact E|].
    eapply same_but_top_count_trans; [apply same_but_top_count_setGlobal|exact HR].
  - destruct v;
      [exact (IHk Htf w)
      |exact (IHk Htf (set_registry (setOnlyMode true (registry w)) w))
      |exact (IHk Htf w)].
  - exact (IHk Htf w).
  - apply andb_true_iff in Htf as [Hb Hk].
    destruct (register_suite_balanced h v nm (exec h body) (IHb Hb) w)
      as (w1 & E1 & H1).
    destruct (IHk Hk w1) as (w' & E & HR). exists w'.
    split; [unfold bind; by rewrite E1|by rewrite <- H1].
  - apply andb_true_iff in Htf as [Hb Hk].
    destruct (nodeDescribe_balanced h nm
                {| only := false; skip := false; todo := true; timeout := None |}
                (exec h body) (IHb Hb) w) as (w1 & E1 & H1).
    destruct (IHk Hk w1) as (w' & E & HR). exists w'.
    split; [|by rewrite <- H1].
    unfold bind.
    change (describeFunction_todo h nm (Some (exec h body)) w)
      with (nodeDescribe h nm
              {| only := false; skip := false; todo := true; timeout := None |}
              (Some (describeFunction_wrappedFn nm (exec h body))) w).
    by rewrite E1.
Qed.

(** X3. Loading a file in which nothing throws -- any nesting of
    [describe] and its variants, [test], [retryTimes] and the file's own
    code -- returns normally and leaves the describe-block stack with the
    same entries, under every host: same names, same entries below the top,
    only the count of the top entry may have been set by a [retryTimes] of
    the file itself.  In particular the depth is unchanged. *)
Theorem registration_keeps_stack :
  ∀ (h : Host) (s : Script) (w : World),
    throw_free s = true →
    ∃ w', exec h s w = (Ok VUndefined, w')
          ∧ map name (describeStack (registry w')) = map name (describeStack (registry w))
          ∧ removelast (describeStack (registry w')) = removelast (describeStack (registry w))
          ∧ depth w' = depth w.
Proof.
  intros h s w Htf. destruct (exec_throw_free h s Htf w) as (w' & E & Hn & Hr).
  exists w'. repeat split; [done..|].
  unfold depth. by rewrite <- (length_map name), Hn, length_map.
Qed.

Lemma registration_keeps_stack_witness :
  ∃ w', exec example_host only_then_sibling initialWorld = (Ok VUndefined, w')
        ∧ map name (describeStack (registry w')) = []
        ∧ removelast (describeStack (registry w')) = []
        ∧ depth w' = 0%nat.
Proof.
  exact (registration_keeps_stack example_host only_then_sibling initialWorld eq_refl).
Defined.

(** ** Files without [.only] *)

Lemma onlyMode_pushDescribeBlock nm r : onlyMode (pushDescribeBlock nm r) = onlyMode r.
Proof. reflexivity. Qed.

Lemma preserves_modify_onlyMode (b : bool) (f : Registry → Registry) :
  (∀ r, onlyMode (f r) = onlyMode r) →
  preserves (λ w, onlyMode (registry w) = b) (modify_registry f).
Proof. intros Hf w Hw. simpl. by rewrite Hf. Qed.

Lemma preserves_wrappedFn_onlyMode (b : bool) nm fn :
  preserves (λ w, onlyMode (registry w) = b) fn →
  preserves (λ w, onlyMode (registry w) = b) (describeFunction_wrappedFn nm fn).
Proof.
  intros Hfn. unfold describeFunction_wrappedFn.
  apply preserves_bind; [by apply preserves_modify_onlyMode|intros _].
  apply preserves_bind; [done|intros _].
  apply preserves_bind; [by apply preserves_modify_onlyMode|intros _].
  apply preserves_ret.
Qed.

Lemma exec_only_free h s (b : bool) :
  only_free s = true → preserves (λ w, onlyMode (registry w) = b) (exec h s).
Proof.
  induction s as [|e|f k IHk|n k IHk|v nm body IHb k IHk|nm k IHk
                 |v nm body IHb k IHk|nm body IHb k IHk];
    intros Hof; cbn [exec only_free] in *.
  - apply preserves_ret.
  - apply preserves_throw.
  - apply preserves_bind; [by intros w Hw|intros _; by apply IHk].
  - apply preserves_bind; [|intros _; by apply IHk].
    apply preserves_modify_onlyMode. intros r. apply onlyMode_setGlobalRetryCount.
  - apply andb_true_iff in Hof as [Hv Hk].
    apply preserves_bind; [|intros _; by apply IHk].
    destruct v; [apply preserves_ret|done|apply preserves_ret].
  - apply preserves_bind; [apply preserves_ret|intros _; by apply IHk].
  - apply andb_true_iff in Hof as [Hvb Hk]. apply andb_true_iff in Hvb as [Hv Hb].
    apply preserves_bind; [|intros _; by apply IHk].
    destruct v; [|done|];
      apply preserves_nodeDescribe; intros g [= <-];
      apply preserves_wrappedFn_onlyMode; by apply IHb.
  - apply andb_true_iff in Hof as [Hb Hk].
    apply preserves_bind; [|intros _; by apply IHk].
    apply preserves_nodeDescribe; intros g [= <-].
    apply preserves_wrappedFn_onlyMode; by apply IHb.
Qed.

(** X4. Loading a file that calls neither [test.only] nor [describe.only]
    leaves the only-mode flag exactly as it was, under every host and also
    when the load throws: [skip], [todo], plain registrations and
    [retryTimes] never write it. *)
Theorem registration_without_only_keeps_flag :
  ∀ (h : Host) (s : Script) (w : World),
    only_free s = true →
    onlyMode (registry (snd (exec h s w))) = onlyMode (registry w).
Proof.
  intros h s w Hof.
  exact (exec_only_free h s (onlyMode (registry w)) Hof w eq_refl).
Qed.

Lemma registration_without_only_keeps_flag_witness :
  onlyMode (registry (snd (exec example_host
     (SDescribe Skip "A" (STest Plain "a" SDone SDone)
        (SRetryTimes 2 (SDescribeTodo "B" (SThrow VNull) (STestTodo "c" SDone))))
     initialWorld))) = false.
Proof.
  exact (registration_without_only_keeps_flag example_host
     (SDescribe Skip "A" (STest Plain "a" SDone SDone)
        (SRetryTimes 2 (SDescribeTodo "B" (SThrow VNull) (STestTodo "c" SDone))))
     initialWorld eq_refl).
Defined.

(** ** Tracked mocks and spies *)

Lemma same_value_zero_refl v : same_value_zero v v = true.
Proof.
  destruct v; simpl; try done.
  - by destruct b.
  - apply Z.eqb_refl.
  - apply String.eqb_refl.
  - apply Nat.eqb_refl.
  - apply String.eqb_refl.
Qed.

Lemma set_add_member x s : existsb (same_value_zero x) (set_add x s) = true.
Proof.
  unfold set_add. destruct (existsb (same_value_zero x) s) eqn:E; [done|].
  rewrite existsb_app. simpl. by rewrite same_value_zero_refl, orb_true_r.
Qed.

Lemma set_add_idem x s : set_add x (set_add x s) = set_add x s.
Proof. unfold set_add at 1. by rewrite set_add_member. Qed.

Lemma map_set_idem {B} k (b b' : B) m : map_set k b (map_set k b' m) = map_set k b m.
Proof.
  induction m as [|[k' x] m IH]; simpl.
  - by rewrite same_value_zero_refl.
  - destruct (same_value_zero k k') eqn:E; simpl; rewrite E; [done|by rewrite IH].
Qed.

(** X5. [registerMock] keeps [createdMocks] a set: registering a mock
    that is already tracked changes nothing, a registered mock is in the
    set, and the mocks registered earlier keep their places. *)
Theorem registerMock_idempotent :
  ∀ (mock : value) (r : Registry),
    registerMock mock (registerMock mock r) = registerMock mock r
    ∧ existsb (same_value_zero mock) (createdMocks (registerMock mock r)) = true
    ∧ ∃ rest, createdMocks (registerMock mock r) = (createdMocks r ++ rest)%list.
Proof.
  intros mock r. split; [|split].
  - unfold registerMock at 1 3. unfold set_createdMocks. simpl.
    by rewrite set_add_idem.
  - apply set_add_member.
  - simpl. unfold set_add. destruct (existsb _ _).
    + exists []. by rewrite app_nil_r.
    + by eexists.
Qed.

(** X6. Registering a spy again (as happens when [spyOn] hands out the
    spy it already made for a method) keeps one entry for it and replaces
    the saved object, method name, original and access type by the new
    ones; the first registration leaves no trace. *)
Theorem registerSpy_again_overwrites :
  ∀ (spy o1 o2 g1 g2 : value) (m1 m2 : string) (a1 a2 : option string)
    (r : Registry),
    registerSpy spy o2 m2 g2 a2 (registerSpy spy o1 m1 g1 a1 r)
    = registerSpy spy o2 m2 g2 a2 r.
Proof.
  intros. unfold registerSpy, set_createdMocks, set_spiedFunctions. simpl.
  by rewrite map_set_idem, set_add_idem.
Qed.

Lemma for_each_method method mocks :
  Forall (λ mock, nullish mock = false) mocks →
  ∀ w, for_each (λ mock, invoke_if_function mock method) mocks w
       = (Ok tt, add_hosts (method_calls method mocks) w).
Proof.
  induction 1 as [|mock mocks Hmock _ IH]; intros w.
  - simpl. unfold ret. by rewrite add_hosts_nil.
  - simpl. unfold bind. rewrite (invoke_if_function_readable _ _ _ Hmock).
    rewrite IH. unfold method_calls. simpl.
    destruct (has_method mock method); [|done].
    simpl. by rewrite add_hosts_cons.
Qed.

(** X7. When every tracked mock is a value whose properties can be read,
    [clearAllMocks] calls [mockClear] on each tracked mock that has it as a
    function, in the order of registration, skips the others without an
    error, and changes nothing in the registry; [resetAllMocks] does the
    same with [mockReset]. *)
Theorem clear_and_reset_all_mocks :
  ∀ w : World,
    Forall (λ mock, nullish mock = false) (createdMocks (registry w)) →
    clearAllMocks w
      = (Ok tt, add_hosts (method_calls "mockClear" (createdMocks (registry w))) w)
    ∧ resetAllMocks w
      = (Ok tt, add_hosts (method_calls "mockReset" (createdMocks (registry w))) w).
Proof.
  intros w Hm. split.
  - unfold clearAllMocks, bind, read_registry. by rewrite (for_each_method _ _ Hm).
  - unfold resetAllMocks, bind, read_registry. by rewrite (for_each_method _ _ Hm).
Qed.

Lemma clear_and_reset_all_mocks_witness :
  clearAllMocks two_spies
    = (Ok tt, add_hosts [MethodCall (spy_function 10) "mockClear";
                         MethodCall (spy_function 20) "mockClear"] two_spies)
  ∧ resetAllMocks two_spies
    = (Ok tt, add_hosts [MethodCall (spy_function 10) "mockReset";
                         MethodCall (spy_function 20) "mockReset"] two_spies).
Proof.
  apply (clear_and_reset_all_mocks two_spies).
  vm_compute. repeat constructor.
Defined.

(** X8. [restoreAllMocks] forgets the spies in the spy map only: they
    stay in [createdMocks], so a [clearAllMocks] right after it still calls
    [mockClear] on every tracked mock, the restored spies included. *)
Theorem restored_spies_still_cleared :
  ∀ w : World,
    Forall (λ entry : value * SpyInfo, nullish (fst entry) = false)
           (spiedFunctions (registry w)) →
    Forall (λ mock, nullish mock = false) (createdMocks (registry w)) →
    ∃ w1 w2,
      restoreAllMocks w = (Ok tt, w1)
      ∧ clearAllMocks w1 = (Ok tt, w2)
      ∧ host w2 = (host w ++ restore_calls (spiedFunctions (registry w))
                     ++ method_calls "mockClear" (createdMocks (registry w)))%list
      ∧ createdMocks (registry w2) = createdMocks (registry w)
      ∧ spiedFunctions (registry w2) = [].
Proof.
  intros w Hs Hm.
  eexists _, _. split.
  { unfold restoreAllMocks, bind at 1, read_registry.
    unfold bind. rewrite (for_each_restore _ Hs). reflexivity. }
  split.
  { unfold clearAllMocks, bind, read_registry. simpl.
    rewrite (for_each_method _ _ Hm). reflexivity. }
  simpl. by rewrite <- app_assoc.
Qed.

Lemma restored_spies_still_cleared_witness :
  ∃ w1 w2,
    restoreAllMocks two_spies = (Ok tt, w1)
    ∧ clearAllMocks w1 = (Ok tt, w2)
    ∧ host w2 = [MethodCall (spy_function 10) "mockRestore";
                 MethodCall (spy_function 20) "mockRestore";
                 MethodCall (spy_function 10) "mockClear";
                 MethodCall (spy_function 20) "mockClear"]
    ∧ createdMocks (registry w2) = [spy_function 10; spy_function 20]
    ∧ spiedFunctions (registry w2) = [].
Proof.
  apply (restored_spies_still_cleared two_spies);
    vm_compute; repeat constructor.
Defined.

(** ** Module mocks: missing entries and failures *)

(** X9. [unmockModule] for a name with no stored context, or with a
    stored context that is falsy, does nothing: no [restore] call, no
    deletion, no error. *)
Theorem unmockModule_nothing_to_restore :
  ∀ (moduleName : string) (w : World),
    truthy (getMockedModule moduleName (registry w)) = false →
    unmockModule moduleName w = (Ok tt, w).
Proof.
  intros moduleName w Hf. unfold unmockModule, bind, read_registry.
  by rewrite Hf.
Qed.

Lemma unmockModule_nothing_to_restore_witness :
  unmockModule "path" fs_mocked = (Ok tt, fs_mocked).
Proof.
  exact (unmockModule_nothing_to_restore "path" fs_mocked eq_refl).
Defined.

(** X10. When the host rejects the substitution, [mockModule] prints the
    error with the module name, throws the very value the host threw, and
    stores nothing: the registry is what the factory left, so the name is
    not marked as mocked by this call. *)
Theorem mockModule_host_rejects :
  ∀ (h : Host) (moduleName : string) (factory : option (M value))
    (exports defaultExport error : value) (next : nat) (w w2 : World),
    mockedModules (registry w) !! moduleName = None →
    match factory with Some f => f | None => new_object end w = (Ok exports, w2) →
    defaultExport_of exports = Ok defaultExport →
    mock_module h (host w2) (heapNext w2) moduleName defaultExport exports
      = (Throw error, next) →
    ∃ w3,
      mockModule h moduleName factory w = (Throw error, w3)
      ∧ registry w3 = registry w2
      ∧ console w3 = (console w2 ++ [ErrorMocking moduleName error])%list
      ∧ host w3 = (host w2 ++ [MockModuleCall moduleName defaultExport exports])%list.
Proof.
  intros h moduleName factory exports defaultExport error next w w2
    Hnone Hfac Hdef Hhost.
  assert (namedExports_of exports = Ok exports) as Hnamed.
  { unfold defaultExport_of in Hdef. unfold namedExports_of.
    destruct (get_prop exports "__esModule"); [by destruct (truthy _)|done]. }
  exists (add_console (ErrorMocking moduleName error)
            (set_heapNext next
               (add_host (MockModuleCall moduleName defaultExport exports) w2))).
  split; [|repeat split].
  unfold mockModule, bind at 1, read_registry.
  rewrite (proj2 (hasMockedModule_false _ _) Hnone).
  unfold bind at 1. rewrite Hfac.
  unfold try_catch, bind, lift, test_mock_module, modify_registry, ret, throw.
  rewrite Hdef, Hnamed, Hhost. reflexivity.
Qed.

(** A host that rejects every substitution. *)
Lemma mockModule_host_rejects_witness :
  let h := {| mock_module := λ _ n _ _ _, (Throw (error_object n "no such module"), S n);
              suite_runs := λ _, true; suite_rethrows := true |} in
  ∃ w3,
    mockModule h "left-pad" None initialWorld = (Throw (error_object 1 "no such module"), w3)
    ∧ registry w3 = initialRegistry
    ∧ console w3 = [ErrorMocking "left-pad" (error_object 1 "no such module")]
    ∧ host w3 = [MockModuleCall "left-pad" (VObject 0 false []) (VObject 0 false [])].
Proof.
  exact (mockModule_host_rejects
           {| mock_module := λ _ n _ _ _, (Throw (error_object n "no such module"), S n);
              suite_runs := λ _, true; suite_rethrows := true |}
           "left-pad" None (VObject 0 false []) (VObject 0 false [])
           (error_object 1 "no such module") 2%nat initialWorld _
           eq_refl eq_refl eq_refl eq_refl).
Defined.

(** X11. A factory that returns [undefined] or [null]: reading
    [__esModule] of the exports throws a [TypeError] inside the [try], so
    [mockModule] prints it and throws it without calling
    [test.mock.module] and without storing anything. *)
Theorem mockModule_nullish_exports :
  ∀ (h : Host) (moduleName : string) (factory : M value)
    (exports : value) (w w2 : World),
    mockedModules (registry w) !! moduleName = None →
    factory w = (Ok exports, w2) →
    nullish exports = true →
    ∃ typeError,
      get_prop exports "__esModule" = Throw typeError
      ∧ mockModule h moduleName (Some factory) w
        = (Throw typeError, add_console (ErrorMocking moduleName typeError) w2).
Proof.
  intros h moduleName factory exports w w2 Hnone Hfac Hnull.
  assert (∃ typeError, get_prop exports "__esModule" = Throw typeError) as [te Hte]
    by (destruct exports; try discriminate; simpl; eauto).
  exists te. split; [exact Hte|].
  unfold mockModule, bind at 1, read_registry.
  rewrite (proj2 (hasMockedModule_false _ _) Hnone).
  unfold bind at 1. rewrite Hfac.
  unfold try_catch, bind, lift, defaultExport_of. by rewrite Hte.
Qed.

Lemma mockModule_nullish_exports_witness :
  ∃ typeError,
    get_prop VUndefined "__esModule" = Throw typeError
    ∧ mockModule example_host "fs" (Some (ret VUndefined)) initialWorld
      = (Throw typeError, add_console (ErrorMocking "fs" typeError) initialWorld).
Proof.
  exact (mockModule_nullish_exports example_host "fs" (ret VUndefined) VUndefined
           initialWorld initialWorld eq_refl eq_refl eq_refl).
Defined.

Lemma for_each_restore_contexts (contexts : list (string * value)) :
  Forall (λ entry, has_method (snd entry) "restore" = true) contexts →
  ∀ w, for_each (λ entry : string * value, invoke (snd entry) "restore" >>> ret tt)
         contexts w
       = (Ok tt, add_hosts (map (λ entry, MethodCall (snd entry) "restore") contexts) w).
Proof.
  induction 1 as [|[nm ctx] contexts Hctx _ IH]; intros w.
  - simpl. unfold ret. by rewrite add_hosts_nil.
  - simpl in *. unfold has_method in Hctx.
    destruct (get_prop ctx "restore") as [f|] eqn:Hp; [|done].
    unfold bind at 1. unfold bind at 1.
    rewrite (invoke_method _ _ _ _ Hp Hctx). unfold ret at 1.
    rewrite IH. by rewrite add_hosts_cons.
Qed.

(** X12. When every stored context has a [restore] method,
    [resetAllModules] calls [restore] once for each mocked module, empties
    [mockedModules] and the module cache (and [require.cache] where there
    is one), so that afterwards no name is mocked and no module is cached;
    the mocks, the spies, the describe-block stack, the retry count and the
    only-mode flag are not reset by it. *)
Theorem resetAllModules_clears :
  ∀ (requireCache : option (gmap string value)) (w : World),
    map_Forall (λ _ ctx, has_method ctx "restore" = true) (mockedModules (registry w)) →
    ∃ w' calls,
      resetAllModules requireCache w
        = (Ok (match requireCache with Some _ => Some ∅ | None => None end), w')
      ∧ host w' = (host w ++ calls)%list
      ∧ length calls = size (mockedModules (registry w))
      ∧ (∀ c, c ∈ calls ↔
              ∃ nm ctx, mockedModules (registry w) !! nm = Some ctx
                        ∧ c = MethodCall ctx "restore")
      ∧ mockedModules (registry w') = ∅
      ∧ moduleCache (registry w') = ∅
      ∧ (∀ nm, hasMockedModule nm (registry w') = false
               ∧ getCachedModule nm (registry w') = VUndefined)
      ∧ createdMocks (registry w') = createdMocks (registry w)
      ∧ spiedFunctions (registry w') = spiedFunctions (registry w)
      ∧ describeStack (registry w') = describeStack (registry w)
      ∧ currentRetryCount (registry w') = currentRetryCount (registry w)
      ∧ onlyMode (registry w') = onlyMode (registry w).
Proof.
  intros requireCache w Hall.
  apply map_Forall_to_list in Hall.
  assert (Forall (λ entry : string * value, has_method (snd entry) "restore" = true)
                 (map_to_list (mockedModules (registry w)))) as Hl.
  { eapply Forall_impl; [exact Hall|]. by intros [nm ctx]. }
  eexists _, (map (λ entry : string * value, MethodCall (snd entry) "restore")
                  (map_to_list (mockedModules (registry w)))).
  split.
  { unfold resetAllModules, bind at 1, read_registry.
    unfold bind at 1. rewrite (for_each_restore_contexts _ Hl).
    unfold bind, modify_registry, ret. reflexivity. }
  split; [reflexivity|].
  split; [by rewrite length_map, length_map_to_list|].
  split.
  { intros c. rewrite list_elem_of_fmap. split.
    - intros ([nm ctx] & -> & Hin). apply elem_of_map_to_list in Hin. eauto.
    - intros (nm & ctx & Hm & ->). exists (nm, ctx). split; [done|].
      by apply elem_of_map_to_list. }
  split; [reflexivity|]. split; [reflexivity|].
  split; [|repeat split].
  intros nm. split.
  - apply hasMockedModule_false. simpl. apply lookup_empty.
  - unfold getCachedModule. simpl. by rewrite lookup_empty.
Qed.

Lemma resetAllModules_clears_witness :
  ∃ w' calls,
    resetAllModules (Some {["/app/a.js" := VObject 9 false []]}) fs_mocked
      = (Ok (Some ∅), w')
    ∧ host w' = (host fs_mocked ++ calls)%list
    ∧ length calls = size (mockedModules (registry fs_mocked))
    ∧ (∀ c, c ∈ calls ↔
            ∃ nm ctx, mockedModules (registry fs_mocked) !! nm = Some ctx
                      ∧ c = MethodCall ctx "restore")
    ∧ mockedModules (registry w') = ∅
    ∧ moduleCache (registry w') = ∅
    ∧ (∀ nm, hasMockedModule nm (registry w') = false
             ∧ getCachedModule nm (registry w') = VUndefined)
    ∧ createdMocks (registry w') = createdMocks (registry fs_mocked)
    ∧ spiedFunctions (registry w') = spiedFunctions (registry fs_mocked)
    ∧ describeStack (registry w') = describeStack (registry fs_mocked)
    ∧ currentRetryCount (registry w') = currentRetryCount (registry fs_mocked)
    ∧ onlyMode (registry w') = onlyMode (registry fs_mocked).
Proof.
  apply (resetAllModules_clears (Some {["/app/a.js" := VObject 9 false []]}) fs_mocked).
  intros nm ctx Hctx.
  change (mockedModules (registry fs_mocked)) with
    (<["fs" := mock_context 0]> (∅ : gmap string value)) in Hctx.
  apply lookup_insert_Some in Hctx as [[_ <-]|[_ Hctx]]; [reflexivity|].
  by rewrite lookup_empty in Hctx.
Defined.

(** ** The module cache and [requireMock] *)

(** X13. [requireMock] looks only at the module cache, which nothing in
    the shim fills: for a name that is not cached -- mocked or not -- it is
    [requireActual].  [cacheModule] and [getCachedModule] are insert and
    lookup: the cached module is read back under its name, other names are
    unaffected, a name never cached reads [undefined]; and [requireMock]
    returns a cached module only when it is truthy, a name cached with a
    falsy value being [requireActual] again. *)
Theorem cached_module_round_trip :
  ∀ (requireActual : string → M value) (nm nm' : string) (module : value)
    (w : World),
    (moduleCache (registry w) !! nm = None →
       getCachedModule nm (registry w) = VUndefined
       ∧ requireMock requireActual nm w = requireActual nm w)
    ∧ getCachedModule nm' (cacheModule nm module (registry w))
      = (if decide (nm = nm') then module else getCachedModule nm' (registry w))
    ∧ getCachedModule nm initialRegistry = VUndefined
    ∧ requireMock requireActual nm
        (set_registry (cacheModule nm module (registry w)) w)
      = (if truthy module
         then (Ok module, set_registry (cacheModule nm module (registry w)) w)
         else requireActual nm (set_registry (cacheModule nm module (registry w)) w)).
Proof.
  intros requireActual nm nm' module w. split; [|split; [|split]].
  - intros Hnone.
    assert (getCachedModule nm (registry w) = VUndefined) as Hg
      by (unfold getCachedModule; by rewrite Hnone).
    split; [exact Hg|].
    unfold requireMock, bind, read_registry. by rewrite Hg.
  - unfold getCachedModule, cacheModule. simpl.
    rewrite lookup_insert. by destruct (decide (nm = nm')).
  - reflexivity.
  - unfold requireMock, bind, read_registry, getCachedModule, cacheModule. simpl.
    rewrite lookup_insert_eq. simpl. by destruct (truthy module).
Qed.

(** ["fs"] is mocked and not cached: [requireMock] gives the actual
    module. *)
Lemma cached_module_round_trip_witness :
  getCachedModule "fs" (registry fs_mocked) = VUndefined
  ∧ requireMock (λ nm, ret (VString ("actual " +:+ nm))) "fs" fs_mocked
    = (Ok (VString "actual fs"), fs_mocked).
Proof.
  exact (proj1 (cached_module_round_trip (λ nm, ret (VString ("actual " +:+ nm)))
                  "fs" "fs" VUndefined fs_mocked) eq_refl).
Defined.

(** ** The retry loop at its edges *)

(** X14. With a negative retry count the loop of [withRetries] and of
    [handleRetries] is not entered: the wrapper returns normally without
    invoking the body at all.  The wrapper of [test], run when the registry
    holds such a count, does not reach the loop and invokes the body once,
    directly. *)
Theorem negative_budget_skips_body :
  ∀ (nm : string) (fn : TestFn) (t : value) (w : World) (N : Z),
    N < 0 →
    withRetries_wrappedFn nm fn N t w = Some (Ok VUndefined, w)
    ∧ handleRetries t fn N nm w = Some (Ok VUndefined, w)
    ∧ testFunction_wrappedFn nm fn t
        (set_registry (setGlobalRetryCount N (registry w)) w)
      = Some (fn t (set_registry
                      (setCurrentTestContext t (setGlobalRetryCount N (registry w)))
                      w)).
Proof.
  intros nm fn t w N HN.
  assert (retry_while (retry_fuel N) (fn t) N nm 0 VUndefined w
          = Some (Ok VUndefined, w)) as E.
  { unfold retry_fuel. simpl.
    by replace (0 <=? N) with false by (symmetry; apply Z.leb_gt; lia). }
  split; [exact E|]. split; [exact E|].
  unfold testFunction_wrappedFn. cbv zeta.
  change (getCurrentRetryCount
            (registry
               (set_registry
                  (setCurrentTestContext t
                     (registry (set_registry (setGlobalRetryCount N (registry w)) w)))
                  (set_registry (setGlobalRetryCount N (registry w)) w))))
    with (getCurrentRetryCount (setGlobalRetryCount N (registry w))).
  rewrite getCurrentRetryCount_setGlobal.
  replace (N >? 0) with false; [done|].
  symmetry. rewrite Z.gtb_ltb. apply Z.ltb_ge. lia.
Qed.

Lemma negative_budget_skips_body_witness :
  withRetries_wrappedFn "t" (always_throws (error_object 1 "boom")) (-1) VUndefined
    initialWorld = Some (Ok VUndefined, initialWorld)
  ∧ handleRetries VUndefined (always_throws (error_object 1 "boom")) (-1) "t"
      initialWorld = Some (Ok VUndefined, initialWorld)
  ∧ testFunction_wrappedFn "t" (always_throws (error_object 1 "boom")) VUndefined
      (set_registry (setGlobalRetryCount (-1) (registry initialWorld)) initialWorld)
    = Some (always_throws (error_object 1 "boom") VUndefined
              (set_registry
                 (setCurrentTestContext VUndefined
                    (setGlobalRetryCount (-1) (registry initialWorld)))
                 initialWorld)).
Proof.
  apply (negative_budget_skips_body "t" (always_throws (error_object 1 "boom"))
           VUndefined initialWorld (-1)).
  lia.
Defined.

(** X15. When a retry is still allowed and an attempt throws [undefined]
    or [null], the retry line cannot be built: reading [error.message]
    throws a [TypeError], and the wrapper ends with that [TypeError] right
    after this attempt, without a retry, without a line on the console, and
    without the value the body threw. *)
Theorem nullish_failure_stops_retries :
  ∀ (t : value) (fn : TestFn) (nm : string) (N : Z) (e : value) (w w1 : World),
    0 < N →
    fn t w = (Throw e, w1) →
    nullish e = true →
    ∃ typeError,
      get_prop e "message" = Throw typeError
      ∧ handleRetries t fn N nm w = Some (Throw typeError, w1)
      ∧ withRetries_wrappedFn nm fn N t w = Some (Throw typeError, w1).
Proof.
  intros t fn nm N e w w1 HN Hfn Hnull.
  assert (∃ typeError, get_prop e "message" = Throw typeError) as [te Hte]
    by (destruct e; try discriminate; simpl; eauto).
  exists te. split; [exact Hte|].
  assert (retry_while (retry_fuel N) (fn t) N nm 0 VUndefined w = Some (Throw te, w1)) as E.
  { unfold retry_fuel. simpl.
    replace (0 <=? N) with true by (symmetry; apply Z.leb_le; lia).
    rewrite Hfn.
    replace (0 <? N) with true by (symmetry; apply Z.ltb_lt; lia).
    by rewrite Hte. }
  by split.
Qed.

Lemma nullish_failure_stops_retries_witness :
  ∃ typeError,
    get_prop VNull "message" = Throw typeError
    ∧ handleRetries VUndefined (λ _ w, (Throw VNull, w)) 3 "t" initialWorld
      = Some (Throw typeError, initialWorld)
    ∧ withRetries_wrappedFn "t" (λ _ w, (Throw VNull, w)) 3 VUndefined initialWorld
      = Some (Throw typeError, initialWorld).
Proof.
  apply (nullish_failure_stops_retries VUndefined (λ _ w, (Throw VNull, w)) "t" 3
           VNull initialWorld initialWorld); [lia|reflexivity|reflexivity].
Defined.

(** The loop on a body that counts its invocations and fails the first
    [K] times with values whose [message] can be read. *)
Section CountedBody.

Variables (errors : nat → value) (K : nat) (t : value) (nm : string) (N : Z).
Hypothesis readable : ∀ i, (i < K)%nat → nullish (errors i) = false.

Lemma retry_lines_cons from count :
  retry_lines nm errors from (S count)
  = LogRetry nm (Z.of_nat from + 1) (message_of (errors from))
    :: retry_lines nm errors (S from) count.
Proof. reflexivity. Qed.

Lemma add_console_app l ls w w' :
  console w' = (console (add_console l w) ++ ls)%list →
  console w' = (console w ++ l :: ls)%list.
Proof. simpl. intros ->. by rewrite <- app_assoc. Qed.

Lemma failing_first_console w :
  console (snd (failing_first errors K t w)) = console w.
Proof. reflexivity. Qed.

Lemma retry_while_counted_success :
  Z.of_nat K ≤ N →
  ∀ d i fuel lastError w,
    K = (i + d)%nat → (d < fuel)%nat → counter w = i →
    ∃ w', retry_while fuel (failing_first errors K t) N nm (Z.of_nat i) lastError w
            = Some (Ok VUndefined, w')
          ∧ counter w' = S K
          ∧ console w' = (console w ++ retry_lines nm errors i d)%list.
Proof.
  intros HK. induction d as [|d IH]; intros i fuel lastError w HKi Hf Hc.
  - destruct fuel as [|fuel]; [lia|]. cbn [retry_while].
    replace (Z.of_nat i <=? N) with true by (symmetry; apply Z.leb_le; lia).
    assert (i = K) as -> by lia.
    pose proof (failing_first_console w) as Hcons.
    destruct (failing_first_succeeds errors K t w Hc) as (v & w' & E & Hc').
    rewrite E in Hcons |- *. simpl in Hcons.
    exists w'. split; [done|]. split; [done|].
    unfold retry_lines. simpl. by rewrite app_nil_r.
  - destruct fuel as [|fuel]; [lia|]. cbn [retry_while].
    replace (Z.of_nat i <=? N) with true by (symmetry; apply Z.leb_le; lia).
    pose proof (failing_first_console w) as Hcons.
    destruct (failing_first_fails errors K t i w ltac:(lia) Hc) as (w1 & E & Hc1).
    rewrite E in Hcons |- *. simpl in Hcons.
    replace (Z.of_nat i <? N) with true by (symmetry; apply Z.ltb_lt; lia).
    destruct (readable_message (errors i) (readable i ltac:(lia))) as [m Hm].
    rewrite Hm.
    replace (Z.of_nat i + 1) with (Z.of_nat (S i)) by lia.
    destruct (IH (S i) fuel (errors i)
                 (add_console (LogRetry nm (Z.of_nat (S i)) m) w1)
                 ltac:(lia) ltac:(lia) Hc1) as (w' & E' & Hc' & Hl).
    exists w'. split; [exact E'|]. split; [exact Hc'|].
    rewrite retry_lines_cons. unfold message_of. rewrite Hm.
    replace (Z.of_nat i + 1) with (Z.of_nat (S i)) by lia.
    rewrite <- Hcons. by apply add_console_app.
Qed.

Lemma retry_while_counted_failure :
  0 ≤ N → N < Z.of_nat K →
  ∀ d i fuel lastError w,
    Z.to_nat N = (i + d)%nat → (S d < fuel)%nat → counter w = i →
    ∃ w', retry_while fuel (failing_first errors K t) N nm (Z.of_nat i) lastError w
            = Some (if truthy (errors (Z.to_nat N))
                    then Throw (errors (Z.to_nat N)) else Ok VUndefined, w')
          ∧ counter w' = S (Z.to_nat N)
          ∧ console w' = (console w ++ retry_lines nm errors i d)%list.
Proof.
  intros H0 HK. induction d as [|d IH]; intros i fuel lastError w HNi Hf Hc.
  - destruct fuel as [|[|fuel]]; [lia|lia|]. cbn [retry_while].
    replace (Z.of_nat i <=? N) with true by (symmetry; apply Z.leb_le; lia).
    pose proof (failing_first_console w) as Hcons.
    destruct (failing_first_fails errors K t i w ltac:(lia) Hc) as (w1 & E & Hc1).
    rewrite E in Hcons |- *. simpl in Hcons.
    replace (Z.of_nat i <? N) with false by (symmetry; apply Z.ltb_ge; lia).
    replace (Z.of_nat i + 1 <=? N) with false by (symmetry; apply Z.leb_gt; lia).
    assert (i = Z.to_nat N) as <- by lia.
    exists w1. split; [done|]. split; [done|].
    unfold retry_lines. simpl. by rewrite app_nil_r.
  - destruct fuel as [|fuel]; [lia|]. cbn [retry_while].
    replace (Z.of_nat i <=? N) with true by (symmetry; apply Z.leb_le; lia).
    pose proof (failing_first_console w) as Hcons.
    destruct (failing_first_fails errors K t i w ltac:(lia) Hc) as (w1 & E & Hc1).
    rewrite E in Hcons |- *. simpl in Hcons.
    replace (Z.of_nat i <? N) with true by (symmetry; apply Z.ltb_lt; lia).
    destruct (readable_message (errors i) (readable i ltac:(lia))) as [m Hm].
    rewrite Hm.
    replace (Z.of_nat i + 1) with (Z.of_nat (S i)) by lia.
    destruct (IH (S i) fuel (errors i)
                 (add_console (LogRetry nm (Z.of_nat (S i)) m) w1)
                 ltac:(lia) ltac:(lia) Hc1) as (w' & E' & Hc' & Hl).
    exists w'. split; [exact E'|]. split; [exact Hc'|].
    rewrite retry_lines_cons. unfold message_of. rewrite Hm.
    replace (Z.of_nat i + 1) with (Z.of_nat (S i)) by lia.
    rewrite <- Hcons. by apply add_console_app.
Qed.

End CountedBody.

(** X16. For a body that counts its invocations and fails the first [K]
    times with values whose [message] can be read, run under a budget
    [N >= 0]: the body is invoked [min K N + 1] times and the console gains
    exactly [min K N] retry lines, numbered from 1, each with the [message]
    of the failure of that attempt; the failure of the last allowed attempt
    is never printed.  The result is success when [K <= N]; otherwise it is
    the value thrown by attempt [N + 1] if that value is truthy, and
    success if it is falsy. *)
Theorem retry_lines_logged :
  ∀ (errors : nat → value) (K : nat) (t : value) (nm : string) (N : Z) (w : World),
    0 ≤ N →
    counter w = 0%nat →
    (∀ i, (i < K)%nat → nullish (errors i) = false) →
    ∃ w',
      handleRetries t (failing_first errors K) N nm w
        = Some (if (K <=? Z.to_nat N)%nat then Ok VUndefined
                else if truthy (errors (Z.to_nat N))
                     then Throw (errors (Z.to_nat N)) else Ok VUndefined, w')
      ∧ counter w' = S (K `min` Z.to_nat N)
      ∧ console w'
        = (console w ++ retry_lines nm errors 0 (K `min` Z.to_nat N))%list.
Proof.
  intros errors K t nm N w HN Hc Hr.
  destruct (K <=? Z.to_nat N)%nat eqn:HK.
  - apply Nat.leb_le in HK. rewrite Nat.min_l by done.
    apply (retry_while_counted_success errors K t nm N Hr ltac:(lia) K 0%nat);
      [done|unfold retry_fuel; lia|done].
  - apply Nat.leb_gt in HK. rewrite Nat.min_r by lia.
    apply (retry_while_counted_failure errors K t nm N Hr HN ltac:(lia)
             (Z.to_nat N) 0%nat); [done|unfold retry_fuel; lia|done].
Qed.

Lemma retry_lines_logged_witness :
  ∃ w',
    handleRetries VUndefined (failing_first (λ i, error_object i "expected") 5) 2 "t"
      initialWorld
      = Some (Throw (error_object 2 "expected"), w')
    ∧ counter w' = 3%nat
    ∧ console w' = [LogRetry "t" 1 (VString "expected");
                    LogRetry "t" 2 (VString "expected")].
Proof.
  apply (retry_lines_logged (λ i, error_object i "expected") 5 VUndefined "t" 2
           initialWorld); [lia|reflexivity|reflexivity].
Defined.

(** ** The current test context *)

Lemma testFunction_wrappedFn_context nm fn t w w' r :
  (∀ w0, currentTestContext (registry (snd (fn t w0)))
         = currentTestContext (registry w0)) →
  testFunction_wrappedFn nm fn t w = Some (r, w') →
  currentTestContext (registry w') = t.
Proof.
  intros Hfn E. unfold testFunction_wrappedFn in E.
  set (w1 := set_registry (setCurrentTestContext t (registry w)) w) in *.
  assert (currentTestContext (registry w1) = t) as Hw1 by reflexivity.
  assert (preserves (λ w0, currentTestContext (registry w0) = t) (fn t)) as Hp.
  { intros w0 H0. by rewrite Hfn. }
  destruct (_ >? 0).
  - exact (retry_while_preserves (λ w0, currentTestContext (registry w0) = t)
             (λ l w0 H0, H0) _ _ _ Hp _ _ _ _ _ _ E Hw1).
  - injection E as E. specialize (Hp w1 Hw1). by rewrite E in Hp.
Qed.

(** X17. The wrapper of [test] stores the host's test context before it
    invokes the body and never clears it: whatever the retry count and
    however the test ends, if the body itself leaves the slot alone the
    slot still holds that context when the wrapper is done. *)
Theorem test_context_stays_published :
  ∀ (nm : string) (fn : TestFn) (t : value) (w w' : World) (r : Res value),
    (∀ w0, currentTestContext (registry (snd (fn t w0)))
           = currentTestContext (registry w0)) →
    testFunction_wrappedFn nm fn t w = Some (r, w') →
    currentTestContext (registry w') = t.
Proof.
  intros nm fn t w w' r. apply testFunction_wrappedFn_context.
Qed.

Lemma test_context_stays_published_witness :
  ∃ r w',
    testFunction_wrappedFn "t" (always_throws (error_object 1 "boom"))
      (VObject 9 false [])
      (set_registry (setGlobalRetryCount 1 initialRegistry) initialWorld)
    = Some (r, w')
    ∧ currentTestContext (registry w') = VObject 9 false [].
Proof.
  eexists _, _. split; [reflexivity|].
  eapply (test_context_stays_published "t" (always_throws (error_object 1 "boom"))
            (VObject 9 false [])
            (set_registry (setGlobalRetryCount 1 initialRegistry) initialWorld));
    [intros w0; reflexivity|reflexivity].
Defined.

(** ** The arguments of [test] and its variants *)

(** X18. [test.skip] and [test.only] register the very wrapper that a
    plain [test(name, fn)] registers, so retries and the test context work
    the same under a filter; they differ in the option they add, and
    [test.only] alone writes the only-mode flag.  [test.todo] registers no
    body. *)
Theorem filter_variants_register_same_wrapper :
  ∀ (nm : string) (fn : TestFn) (tmo : option Z) (w : World),
    reg_fn (testFunction_skip nm (Some fn))
      = reg_fn (testFunction nm (ArgFunction fn) ArgUndefined)
    ∧ (∃ reg, testFunction_only nm (Some fn) tmo w
              = (Ok reg, set_registry (setOnlyMode true (registry w)) w)
              ∧ reg_fn reg = reg_fn (testFunction nm (ArgFunction fn) ArgUndefined)
              ∧ only (reg_options reg) = true
              ∧ timeout (reg_options reg) = tmo)
    ∧ skip (reg_options (testFunction_skip nm (Some fn))) = true
    ∧ reg_fn (testFunction_todo nm) = None
    ∧ todo (reg_options (testFunction_todo nm)) = true.
Proof.
  intros nm fn tmo w. split; [reflexivity|]. split; [|by repeat split].
  eexists. split; [reflexivity|]. by destruct tmo.
Qed.

(** X19. [test(name, a, b)] takes its body from [a] when [a] is a
    function, and from [b] only when [a] is an options object.  So a body
    passed third after [undefined], [null] or a number is dropped and the
    test is registered without a function; an options object passed third
    after the body is ignored, only a number there becomes the timeout. *)
Theorem test_arguments :
  ∀ (nm : string) (fn : TestFn) (o : Options) (n : Z) (third : Arg TestFn),
    reg_fn (testFunction nm ArgUndefined (ArgFunction fn)) = None
    ∧ reg_fn (testFunction nm ArgNull (ArgFunction fn)) = None
    ∧ reg_fn (testFunction nm (ArgNumber n) (ArgFunction fn)) = None
    ∧ reg_fn (testFunction nm (ArgOptions o) (ArgFunction fn))
      = Some (testFunction_wrappedFn nm fn)
    ∧ reg_options (testFunction nm (ArgOptions o) third) = o
    ∧ reg_fn (testFunction nm (ArgFunction fn) third)
      = Some (testFunction_wrappedFn nm fn)
    ∧ reg_options (testFunction nm (ArgFunction fn) (ArgOptions o)) = noOptions
    ∧ reg_options (testFunction nm (ArgFunction fn) (ArgNumber n))
      = with_timeout n noOptions.
Proof. intros. repeat split; by destruct third. Qed.

(** ** Fake timers *)



(** X21. [useRealTimers] resets the host's timers only when faking: a
    second call, or a call when not faking, makes no call on the host.
    After a [useFakeTimers] that returned it makes exactly one reset; after
    a [useFakeTimers] that ended with a throw it makes a reset only if the
    timers were faked before that call. *)
Theorem useRealTimers_idempotent :
  ∀ (th : TimersHost) (config : TimersConfig) (ft : FakeTimers),
    useRealTimers (useRealTimers ft) = useRealTimers ft
    ∧ isFaking (useRealTimers ft) = false
    ∧ mockTimers (useRealTimers ft)
      = (mockTimers ft ++ (if isFaking ft then [TimersReset] else []))%list
    ∧ mockTimers (useRealTimers (snd (useFakeTimers th config ft)))
      = (mockTimers (snd (useFakeTimers th config ft))
           ++ match fst (useFakeTimers th config ft) with
              | None => [TimersReset]
              | Some _ => if isFaking ft then [TimersReset] else []
              end)%list
    ∧ useRealTimers newFakeTimers = newFakeTimers.
Proof.
  intros th config ft. split; [|split; [|split; [|split]]].
  - unfold useRealTimers.
    destruct ft as [[|] calls warns]; simpl; by rewrite ?app_nil_r.
  - unfold useRealTimers. by destruct (isFaking ft) eqn:Hf.
  - unfold useRealTimers. destruct (isFaking ft); simpl; by rewrite ?app_nil_r.
  - unfold useFakeTimers, timers_try, useRealTimers.
    destruct ft as [[|] calls warns]; simpl.
    + destruct (th calls TimersReset); simpl; [done|].
      by destruct (th _ _).
    + destruct (th _ _); simpl; by rewrite ?app_nil_r.
  - reflexivity.
Qed.

(** A host that refuses a negative [now]: [useFakeTimers({ now: -1 })]
    ends with the host's error, [isFaking] stays false, and the
    [useRealTimers] after it makes no reset. *)
Example useFakeTimers_enable_throws :
  let th : TimersHost :=
    λ _ c, match c with
           | TimersEnable _ (Some (VNumber n)) =>
               if n <? 0 then Some (error_object 1 "ERR_INVALID_ARG_VALUE") else None
           | _ => None
           end in
  let config := {| cfg_doNotFake := Some ["Date"; "nextTick"]; cfg_now := VNumber (-1) |} in
  useFakeTimers th config newFakeTimers
  = (Some (error_object 1 "ERR_INVALID_ARG_VALUE"),
     {| isFaking := false;
        mockTimers := [TimersEnable ["setTimeout"; "setInterval"; "setImmediate"]
                         (Some (VNumber (-1)))];
        timerWarnings := [] |})
  ∧ useRealTimers (snd (useFakeTimers th config newFakeTimers))
    = snd (useFakeTimers th config newFakeTimers).
Proof. split; reflexivity. Qed.

(** X22. [clearAllTimers] resets the host's timers and enables them
    again with all four default APIs and no [now], whatever [doNotFake] the
    timers were set up with, and it never changes [isFaking].  So when it
    is called while not faking, the host's timers are left enabled and a
    following [useRealTimers] does not reset them. *)
Theorem clearAllTimers_reenables_defaults :
  ∀ ft : FakeTimers,
    mockTimers (clearAllTimers ft)
      = (mockTimers ft ++ [TimersReset; TimersEnable defaultApis None])%list
    ∧ isFaking (clearAllTimers ft) = isFaking ft
    ∧ useRealTimers (clearAllTimers (useRealTimers ft))
      = clearAllTimers (useRealTimers ft)
    ∧ last (mockTimers (useRealTimers (clearAllTimers (useRealTimers ft))))
      = Some (TimersEnable defaultApis None).
Proof.
  intros ft. unfold clearAllTimers, useRealTimers, ensureFakingTime.
  destruct ft as [[|] calls warns]; simpl; repeat split;
    rewrite <- ?app_assoc; try done;
    by rewrite ?app_assoc, last_snoc.
Qed.

(** X23. The functions that drive the clock do not stop when the timers
    are not faked: they print the warning once and make their call on the
    host all the same; when faking they print nothing.  None of them
    changes [isFaking].  [getTimerCount] makes no call on the host and
    always answers 0, with its own warning. *)
Theorem timer_functions_warn_and_forward :
  ∀ (ft : FakeTimers) (msToRun : Z) (now : TimeArg),
    let warned := (timerWarnings ft
                   ++ (if isFaking ft then [] else [notFakingWarning]))%list in
    (mockTimers (runAllTimers ft) = (mockTimers ft ++ [TimersRunAll])%list
     ∧ timerWarnings (runAllTimers ft) = warned
     ∧ isFaking (runAllTimers ft) = isFaking ft)
    ∧ runOnlyPendingTimers ft = runAllTimers ft
    ∧ (mockTimers (advanceTimersByTime msToRun ft)
         = (mockTimers ft ++ [TimersTick msToRun])%list
       ∧ timerWarnings (advanceTimersByTime msToRun ft) = warned
       ∧ isFaking (advanceTimersByTime msToRun ft) = isFaking ft)
    ∧ (∃ time, mockTimers (setSystemTime now ft)
                 = (mockTimers ft ++ [TimersSetTime time])%list
               ∧ timerWarnings (setSystemTime now ft) = warned
               ∧ isFaking (setSystemTime now ft) = isFaking ft)
    ∧ (fst (getTimerCount ft) = 0
       ∧ mockTimers (snd (getTimerCount ft)) = mockTimers ft
       ∧ timerWarnings (snd (getTimerCount ft))
         = (timerWarnings ft
            ++ ["getTimerCount is not supported in Node.js test runner."])%list).
Proof.
  intros ft msToRun now.
  unfold runAllTimers, runOnlyPendingTimers, advanceTimersByTime, setSystemTime,
    ensureFakingTime.
  destruct ft as [[|] calls warns]; simpl; rewrite ?app_nil_r;
    repeat split; eexists; repeat split.
Qed.





(** X25. [setSystemTime] sets the time 0 for every falsy argument: a
    missing argument, [undefined], [null], [0], [NaN]; a [Date] is set by
    its [getTime()] and any other truthy value is passed as it is. *)
Theorem setSystemTime_falsy_is_zero :
  ∀ (v : value) (ft : FakeTimers),
    truthy v = false →
    setSystemTime (TimeValue v) ft = setSystemTime (TimeDate 0) ft
    ∧ mockTimers (setSystemTime (TimeValue v) ft)
      = (mockTimers ft ++ [TimersSetTime (VNumber 0)])%list.
Proof.
  intros v ft Hv. unfold setSystemTime. rewrite Hv. split; [done|].
  unfold ensureFakingTime. by destruct (isFaking ft).
Qed.

Lemma setSystemTime_falsy_is_zero_witness :
  setSystemTime (TimeValue VNaN) newFakeTimers = setSystemTime (TimeDate 0) newFakeTimers
  ∧ mockTimers (setSystemTime (TimeValue VNaN) newFakeTimers)
    = [TimersSetTime (VNumber 0)].
Proof.
  exact (setSystemTime_falsy_is_zero VNaN newFakeTimers eq_refl).
Defined.

(** ** The snapshot matcher *)

(** X26. Without a usable test context -- no test has started yet (the
    slot holds [null]), or the stored context is falsy, or it has no truthy
    [assert] -- [toMatchSnapshot] throws a new [Error] and does not call
    the host. *)
Theorem toMatchSnapshot_needs_context :
  ∀ (snapshot : list HostEvent → value → Res value) (received : value) (w : World),
    (truthy (currentTestContext (registry w)) = false
     ∨ ∃ a, get_prop (currentTestContext (registry w)) "assert" = Ok a
            ∧ truthy a = false) →
    toMatchSnapshot snapshot received w
    = (Throw (VObject (heapNext w) false
                [("message",
                  VString "Snapshot testing requires a test context with assert property")]),
       bump_heap w).
Proof.
  intros snapshot received w H.
  unfold toMatchSnapshot, bind at 1, read_registry, getCurrentTestContext.
  destruct (truthy (currentTestContext (registry w))) eqn:Ht.
  - destruct H as [H|(a & Ha & Hf)]; [done|].
    unfold bind at 1. unfold bind at 1. unfold lift. rewrite Ha.
    unfold ret at 1. by rewrite Hf.
  - reflexivity.
Qed.

Lemma toMatchSnapshot_needs_context_witness :
  toMatchSnapshot (λ _ _, Ok VUndefined) (VNumber 42) initialWorld
  = (Throw (VObject 0 false
              [("message",
                VString "Snapshot testing requires a test context with assert property")]),
     bump_heap initialWorld).
Proof.
  apply (toMatchSnapshot_needs_context (λ _ _, Ok VUndefined) (VNumber 42) initialWorld).
  left. reflexivity.
Defined.

Lemma toMatchSnapshot_usable snapshot received ctx a w :
  currentTestContext (registry w) = ctx →
  truthy ctx = true →
  get_prop ctx "assert" = Ok a →
  truthy a = true →
  has_method a "snapshot" = true →
  toMatchSnapshot snapshot received w
  = (Ok (match snapshot (host w) received with
         | Ok _ => {| matcher_pass := true;
                      matcher_message := Ok (VString "Snapshot matches") |}
         | Throw error => {| matcher_pass := false;
                             matcher_message := mismatch_message error |}
         end),
     add_host (MethodCall a "snapshot") w).
Proof.
  intros <- Ht Ha Hta Hm.
  cbv beta iota delta
    [toMatchSnapshot bind read_registry getCurrentTestContext lift ret try_catch].
  rewrite Ht. cbv beta iota. rewrite Ha. cbv beta iota. rewrite Hta.
  cbv beta iota delta [negb]. rewrite ?Ha. cbv beta iota.
  unfold has_method in Hm.
  destruct (get_prop a "snapshot") as [f|]; [|done]. rewrite Hm.
  cbv beta iota.
  by destruct (snapshot (host w) received).
Qed.

(** X27. With a test context whose [assert] has a [snapshot] function,
    [toMatchSnapshot] calls it once and never throws: when the host's
    snapshot check throws, the matcher returns [pass: false] with the
    error's [message] (or a fixed text when that is falsy), and
    [pass: true] when it returns. *)
Theorem toMatchSnapshot_reports_mismatch :
  ∀ (snapshot : list HostEvent → value → Res value) (received ctx a : value)
    (w : World),
    currentTestContext (registry w) = ctx →
    truthy ctx = true →
    get_prop ctx "assert" = Ok a →
    truthy a = true →
    has_method a "snapshot" = true →
    toMatchSnapshot snapshot received w
    = (Ok (match snapshot (host w) received with
           | Ok _ => {| matcher_pass := true;
                        matcher_message := Ok (VString "Snapshot matches") |}
           | Throw error => {| matcher_pass := false;
                               matcher_message := mismatch_message error |}
           end),
       add_host (MethodCall a "snapshot") w).
Proof. intros *. apply toMatchSnapshot_usable. Qed.

Lemma toMatchSnapshot_reports_mismatch_witness :
  let assert := VObject 2 false [("snapshot", VObject 3 true [])] in
  let ctx := VObject 1 false [("assert", assert)] in
  let w := set_registry (setCurrentTestContext ctx initialRegistry) initialWorld in
  toMatchSnapshot (λ _ _, Throw (error_object 4 "")) (VNumber 42) w
  = (Ok {| matcher_pass := false;
           matcher_message := Ok (VString "Snapshot does not match") |},
     add_host (MethodCall assert "snapshot") w).
Proof.
  exact (toMatchSnapshot_reports_mismatch (λ _ _, Throw (error_object 4 ""))
           (VNumber 42)
           (VObject 1 false [("assert", VObject 2 false [("snapshot", VObject 3 true [])])])
           (VObject 2 false [("snapshot", VObject 3 true [])])
           (set_registry
              (setCurrentTestContext
                 (VObject 1 false
                    [("assert", VObject 2 false [("snapshot", VObject 3 true [])])])
                 initialRegistry) initialWorld)
           eq_refl eq_refl eq_refl eq_refl eq_refl).
Defined.

(** X28. The context slot is shared and is not cleared when a test ends:
    after the wrapper of a test has run (with a body that leaves the slot
    alone), a [toMatchSnapshot] made outside any test does not throw for a
    missing context but goes to the [assert.snapshot] of that last test. *)
Theorem snapshot_after_test_uses_its_context :
  ∀ (snapshot : list HostEvent → value → Res value) (received : value)
    (nm : string) (fn : TestFn) (t a : value) (w w' : World) (r : Res value),
    (∀ w0, currentTestContext (registry (snd (fn t w0)))
           = currentTestContext (registry w0)) →
    truthy t = true →
    get_prop t "assert" = Ok a →
    truthy a = true →
    has_method a "snapshot" = true →
    testFunction_wrappedFn nm fn t w = Some (r, w') →
    ∃ result,
      toMatchSnapshot snapshot received w'
      = (Ok result, add_host (MethodCall a "snapshot") w').
Proof.
  intros snapshot received nm fn t a w w' r Hfn Ht Ha Hta Hm E.
  eexists.
  apply (toMatchSnapshot_usable snapshot received t a w'
           (testFunction_wrappedFn_context nm fn t w w' r Hfn E) Ht Ha Hta Hm).
Qed.

Lemma snapshot_after_test_uses_its_context_witness :
  let assert := VObject 2 false [("snapshot", VObject 3 true [])] in
  let ctx := VObject 1 false [("assert", assert)] in
  ∃ r w' result,
    testFunction_wrappedFn "t" (λ _, ret VUndefined) ctx initialWorld = Some (r, w')
    ∧ toMatchSnapshot (λ _ _, Ok VUndefined) (VNumber 42) w'
      = (Ok result, add_host (MethodCall assert "snapshot") w').
Proof.
  eexists _, _. 
  assert (testFunction_wrappedFn "t" (λ _, ret VUndefined)
            (VObject 1 false [("assert", VObject 2 false [("snapshot", VObject 3 true [])])])
            initialWorld
          = Some (Ok VUndefined,
                  set_registry
                    (setCurrentTestContext
                       (VObject 1 false
                          [("assert", VObject 2 false [("snapshot", VObject 3 true [])])])
                       initialRegistry) initialWorld)) as E by reflexivity.
  destruct (snapshot_after_test_uses_its_context (λ _ _, Ok VUndefined) (VNumber 42)
              "t" (λ _, ret VUndefined)
              (VObject 1 false
                 [("assert", VObject 2 false [("snapshot", VObject 3 true [])])])
              (VObject 2 false [("snapshot", VObject 3 true [])])
              initialWorld _ _ (λ w0, eq_refl) eq_refl eq_refl
              eq_refl eq_refl E) as [result Hres].
  exists result. split; [exact E|exact Hres].
Defined.
